(** * Prometheus remote-write output: the flush cycle

    A shallow embedding of [pkg/remotewrite/remotewrite.go]: the conversion of
    buffered k6 samples into Prometheus time series ([convertToTimeSeries])
    and the periodic [flush] that marshals, compresses and stores them, with
    the process-wide [flushTooLong] toggle.

    Go values are modelled as follows.
    - [int], [int64] and [time.Duration] are [Z]; no arithmetic is done on
      them here besides comparisons, so no wrap-around arises.
    - A [float64] is carried as its IEEE-754 bit pattern; no floating-point
      operation is performed by the code under study.
    - [map[string]bool] is a [gmap string bool]; reading a missing key gives
      [false], as in Go.
    - Slices are lists; [append] adds at the end.
    - A pointer receiver [o *Output] with mutable fields is threaded as a
      value of the record [Output]; the process keeps every instance in a
      store addressed by a natural number, next to the package-level
      variable [flushTooLong].
    - The logger is the list of entries written through it, oldest first. *)

From Stdlib Require Import ZArith Strings.Byte.
From stdpp Require Import base option list gmap strings.

Local Open Scope Z_scope.

(** ** Go base types *)

Definition float64 : Type := Z.
Definition Duration : Type := Z.
Definition error : Type := string.
Definition bytes : Type := list Byte.byte.

(** [len] of a slice, as a Go [int]. *)
Definition len {A : Type} (l : list A) : Z := Z.of_nat (length l).

(** ** k6 metrics (package [go.k6.io/k6/metrics]) *)

Module metrics.

Inductive MetricType : Type := Counter | Gauge | Trend | Rate.

Record Metric : Type := mkMetric {
  Name : string;
  Type_ : MetricType
}.

Record Sample : Type := mkSample {
  Metric_ : Metric;
  Time : Z;
  Tags : gmap string string;
  Value : float64
}.

(** A [SampleContainer] is anything with [GetSamples() []Sample]. *)
Record SampleContainer : Type := mkContainer {
  GetSamples : list Sample
}.

End metrics.

(** ** Remote-write protocol messages (package [prompb]) *)

Module prompb.

Record Label : Type := mkLabel {
  LName : string;
  LValue : string
}.

Record Sample : Type := mkSample {
  Value : float64;
  Timestamp : Z
}.

Record TimeSeries : Type := mkTimeSeries {
  Labels : list Label;
  Samples : list Sample
}.

Record WriteRequest : Type := mkWriteRequest {
  Timeseries : list TimeSeries
}.

End prompb.

(** ** Logging (package [logrus]) *)

Inductive Level : Type :=
  | FatalLevel | ErrorLevel | WarnLevel | InfoLevel | DebugLevel.

(** The message of an entry.  The two [fmt.Sprintf] messages of [flush] keep
    their arguments instead of the rendered text. *)
Inductive Message : Type :=
  | Text (s : string)
  | ErrorValue (e : error)
  | RemoteWriteTookWhile (d period : Duration)
  | RemoteWriteTook (d : Duration).

Record Entry : Type := mkEntry {
  level : Level;
  nts_field : option Z;
  err_field : option error;
  message : Message
}.

(** The entry [logger.Error(err)] writes. *)
Definition errorEntry (e : error) : Entry :=
  mkEntry ErrorLevel None None (ErrorValue e).

(** ** Collaborators that live outside this file

    [Config], [Mapping], [metricsStorage], [tagsToLabels] and [transform]
    belong to this package but to other files; [remote.WriteClient],
    [proto.Marshal] and [snappy.Encode] are libraries.  They are taken as
    parameters.  A Go result pair [(v, err)] is a pair whose second component
    is [None] for [nil].  [transform] has a pointer receiver, so it also
    returns the storage it leaves behind; [Store] likewise returns the
    client's state after the call.  [snappy.Encode] has no error result and
    is documented to panic: [None] stands for the panic. *)

Class Externals : Type := {
  Config : Type;
  FlushPeriod : Config -> Duration;
  Mapping : Type;
  metricsStorage : Type;
  tagsToLabels : gmap string string -> Config -> list prompb.Label * option error;
  transform : metricsStorage -> Mapping -> metrics.Sample -> list prompb.Label ->
              metricsStorage * (list prompb.TimeSeries * option error);
  WriteClient : Type;
  Store : WriteClient -> bytes -> WriteClient * option error;
  Marshal : prompb.WriteRequest -> bytes * option error;
  snappyEncode : bytes -> option bytes
}.

Section Remotewrite.

Context `{Ext : Externals}.

(** ** The [Output] struct *)

Record Output : Type := mkOutput {
  config : Config;
  client : WriteClient;
  metrics_ : metricsStorage;
  mapping : Mapping;
  SampleBuffer : list metrics.SampleContainer;
  logger : list Entry
}.

Definition setClient (o : Output) (c : WriteClient) : Output :=
  mkOutput (config o) c (metrics_ o) (mapping o) (SampleBuffer o) (logger o).

Definition setMetrics (o : Output) (m : metricsStorage) : Output :=
  mkOutput (config o) (client o) m (mapping o) (SampleBuffer o) (logger o).

Definition setSampleBuffer (o : Output) (b : list metrics.SampleContainer) : Output :=
  mkOutput (config o) (client o) (metrics_ o) (mapping o) b (logger o).

(** One call on [o.logger]. *)
Definition log (o : Output) (e : Entry) : Output :=
  mkOutput (config o) (client o) (metrics_ o) (mapping o) (SampleBuffer o)
           (logger o ++ [e]).

(** [o.logger.Error(err)] *)
Definition logError (o : Output) (e : error) : Output :=
  log o (errorEntry e).

(** [o.GetBufferedSamples()]: hands out the buffered containers and leaves
    the buffer empty. *)
Definition GetBufferedSamples (o : Output) : list metrics.SampleContainer * Output :=
  (SampleBuffer o, setSampleBuffer o []).

(** [o.AddMetricSamples(containers)], the producers' side of the buffer. *)
Definition AddMetricSamples (o : Output) (cs : list metrics.SampleContainer) : Output :=
  setSampleBuffer o (SampleBuffer o ++ cs).

(** ** [convertToTimeSeries] *)

(** The variables the two loops update: [promTimeSeries], [seen] and the
    receiver. *)
Record Conv : Type := mkConv {
  promTimeSeries : list prompb.TimeSeries;
  seen : gmap string bool;
  recv : Output
}.

(** [seen[name]] *)
Definition isSeen (seen : gmap string bool) (name : string) : bool :=
  default false (seen !! name).

(** The body of the inner loop, for one [sample]. *)
Definition sampleStep (st : Conv) (sample : metrics.Sample) : Conv :=
  let name := metrics.Name (metrics.Metric_ sample) in
  if isSeen (seen st) name then st
  else
    let o := recv st in
    let '(labels, err) := tagsToLabels (metrics.Tags sample) (config o) in
    let o := match err with Some e => logError o e | None => o end in
    let '(m, (newts, err)) := transform (metrics_ o) (mapping o) sample labels in
    let o := setMetrics o m in
    let '(pts, o) :=
      match err with
      | Some e => (promTimeSeries st, logError o e)
      | None => (promTimeSeries st ++ newts, o)
      end in
    mkConv pts (<[name := true]> (seen st)) o.

(** The inner loop over the samples of one container. *)
Definition samplesLoop (st : Conv) (samples : list metrics.Sample) : Conv :=
  foldl sampleStep st samples.

(** The outer loop.  [flushTooLong] is the value of the package-level
    variable, which no statement of the loop writes; the [break] is tested
    after each container. *)
Fixpoint containersLoop (flushTooLong : bool)
    (samplesContainers : list metrics.SampleContainer) (st : Conv) : Conv :=
  match samplesContainers with
  | [] => st
  | samplesContainer :: rest =>
      let st := samplesLoop st (metrics.GetSamples samplesContainer) in
      if flushTooLong && (150000 <? len (promTimeSeries st))
      then st
      else containersLoop flushTooLong rest st
  end.

Definition convertToTimeSeries (flushTooLong : bool) (o : Output)
    (samplesContainers : list metrics.SampleContainer)
    : list prompb.TimeSeries * Output :=
  let st := containersLoop flushTooLong samplesContainers (mkConv [] ∅ o) in
  (promTimeSeries st, recv st).

(** ** [flush] *)

(** How a call of [flush] ends: it returns, or [snappy.Encode] panics and
    the panic unwinds through the deferred closure, or [logger.Fatal]
    ends the process with [os.Exit], which runs no deferred call.  Each
    carries the state reached at that point. *)
Inductive Outcome (A : Type) : Type :=
  | Returned (a : A)
  | Panicked (a : A)
  | Exited (a : A).
Global Arguments Returned {A} a.
Global Arguments Panicked {A} a.
Global Arguments Exited {A} a.

(** The state [flush] hands back to its caller, by a return or by an unwinding
    panic, both of which run the deferred closure; none when the process
    exited inside the call. *)
Definition stateAfter {A : Type} (r : Outcome A) : option A :=
  match r with
  | Returned a | Panicked a => Some a
  | Exited _ => None
  end.

Definition mapOutcome {A B : Type} (f : A -> B) (r : Outcome A) : Outcome B :=
  match r with
  | Returned a => Returned (f a)
  | Panicked a => Panicked (f a)
  | Exited a => Exited (f a)
  end.

(** The deferred closure.  [d] is [time.Since(start)], read from the clock
    when the closure runs, and [nts] the captured local.  It returns the
    new value of [flushTooLong]. *)
Definition flushDeferred (d : Duration) (nts : Z) (o : Output) : bool * Output :=
  if FlushPeriod (config o) <? d
  then (true,
        log o (mkEntry WarnLevel (Some nts) None
                 (RemoteWriteTookWhile d (FlushPeriod (config o)))))
  else (false, log o (mkEntry DebugLevel (Some nts) None (RemoteWriteTook d))).

(** Lines 113-128: what [flush] does with the converted series. *)
Definition sendTimeSeries (d : Duration) (flushTooLong : bool)
    (converted : list prompb.TimeSeries * Output) : Outcome (bool * Output) :=
  let '(promTimeSeries, o) := converted in
  let nts := len promTimeSeries in
  let o := log o (mkEntry DebugLevel (Some nts) None
             (Text "Converted samples to time series in preparation for sending.")) in
  let req := prompb.mkWriteRequest promTimeSeries in
  match Marshal req with
  | (_, Some err) =>
      Exited (flushTooLong,
              log o (mkEntry FatalLevel None (Some err)
                       (Text "Failed to marshal timeseries.")))
  | (buf, None) =>
      match snappyEncode buf with
      | None => Panicked (flushDeferred d nts o)
      | Some encoded =>
          let '(c, err) := Store (client o) encoded in
          let o := setClient o c in
          let o :=
            match err with
            | Some e => log o (mkEntry ErrorLevel None (Some e)
                                 (Text "Failed to store timeseries."))
            | None => o
            end in
          Returned (flushDeferred d nts o)
      end
  end.

(** [flush], run with the package-level variable holding [flushTooLong]
    and the clock showing [d] elapsed at the end. *)
Definition flush (d : Duration) (flushTooLong : bool) (o : Output)
    : Outcome (bool * Output) :=
  let '(samplesContainers, o) := GetBufferedSamples o in
  sendTimeSeries d flushTooLong (convertToTimeSeries flushTooLong o samplesContainers).

(** The series one flush converts, the [promTimeSeries] of line 112. *)
Definition flushBatch (flushTooLong : bool) (o : Output) : list prompb.TimeSeries :=
  let '(samplesContainers, o) := GetBufferedSamples o in
  fst (convertToTimeSeries flushTooLong o samplesContainers).

(** ** The process: one [flushTooLong], any number of [Output]s *)

Record Process : Type := mkProcess {
  flushTooLong : bool;
  outputs : gmap nat Output
}.

(** The periodic flusher of the instance at [ptr] fires.  Flushes are run
    one after the other. *)
Definition runFlush (ptr : nat) (d : Duration) (p : Process) : option (Outcome Process) :=
  match outputs p !! ptr with
  | None => None
  | Some o =>
      Some (mapOutcome
              (fun r : bool * Output => mkProcess (fst r) (<[ptr := snd r]> (outputs p)))
              (flush d (flushTooLong p) o))
  end.

(** The number of series the instance at [b] converts in its next flush,
    after the flush of the instance at [a] which took [d]. *)
Definition nextBatchLen (a b : nat) (d : Duration) (p : Process) : option Z :=
  r ← runFlush a d p;
  p1 ← stateAfter r;
  o ← outputs p1 !! b;
  Some (len (flushBatch (flushTooLong p1) o)).

(** ** Reference definitions for the conversion *)

Definition nameOf (s : metrics.Sample) : string :=
  metrics.Name (metrics.Metric_ s).

(** All samples of a list of containers, in processing order. *)
Definition samplesOf (cs : list metrics.SampleContainer) : list metrics.Sample :=
  concat (metrics.GetSamples <$> cs).

(** The samples of [l] that have no sample of the same metric name among
    the samples before them ([earlier] first, then the part of [l] already
    passed). *)
Fixpoint firstPerName (earlier l : list metrics.Sample) : list metrics.Sample :=
  match l with
  | [] => []
  | s :: l' =>
      if bool_decide (nameOf s ∈ nameOf <$> earlier)
      then firstPerName (earlier ++ [s]) l'
      else s :: firstPerName (earlier ++ [s]) l'
  end.

(** [seen] holds exactly the names of the samples in [earlier]. *)
Definition SeenIs (sn : gmap string bool) (earlier : list metrics.Sample) : Prop :=
  forall name, isSeen sn name = true <-> name ∈ nameOf <$> earlier.

(** What the conversion leaves alone in its receiver: everything but the
    metrics storage, and the logger only grows. *)
Definition convFrame (o o' : Output) : Prop :=
  config o' = config o /\ client o' = client o /\ mapping o' = mapping o
  /\ SampleBuffer o' = SampleBuffer o /\ logger o `prefix_of` logger o'.

(** Converting one sample, with no test on its name: labels are built, the
    sample goes to [transform], the result is appended or the error
    logged. *)
Definition convertSample (acc : list prompb.TimeSeries * Output)
    (sample : metrics.Sample) : list prompb.TimeSeries * Output :=
  let '(pts, o) := acc in
  let '(labels, err) := tagsToLabels (metrics.Tags sample) (config o) in
  let o := match err with Some e => logError o e | None => o end in
  let '(m, (newts, err)) := transform (metrics_ o) (mapping o) sample labels in
  let o := setMetrics o m in
  match err with
  | Some e => (pts, logError o e)
  | None => (pts ++ newts, o)
  end.

(** The samples of [l] whose metric name is not [name]. *)
Definition withoutName (name : string) (l : list metrics.Sample) : list metrics.Sample :=
  filter (fun s => nameOf s ≠ name) l.

Definition containerWithoutName (name : string) (c : metrics.SampleContainer)
    : metrics.SampleContainer :=
  metrics.mkContainer (withoutName name (metrics.GetSamples c)).


(** Modelled from the spec: [tagsToLabels] is defined in another file of the
    package.  Its contract says that when it fails the labels of that sample
    are empty. *)
Definition tagsToLabelsEmptyOnError : Prop :=
  forall tags cfg labels e,
    tagsToLabels tags cfg = (labels, Some e) -> labels = [].

(** ** Further reference definitions *)

(** The state an outcome carries, whichever way [flush] ended. *)
Definition outcomeState {A : Type} (r : Outcome A) : A :=
  match r with
  | Returned a | Panicked a | Exited a => a
  end.

(** The metric names that occur among the samples of [l]. *)
Definition distinctNames (l : list metrics.Sample) : gset string :=
  list_to_set (nameOf <$> l).

(** [ts] is one of the series [transform] returned, without an error, for
    a sample of [l] and the labels [tagsToLabels] built from its tags,
    under the configuration and the mapping of [o]. *)
Definition transformedFrom (o : Output) (l : list metrics.Sample)
    (ts : prompb.TimeSeries) : Prop :=
  exists s m m' newts,
    s ∈ l
    /\ transform m (mapping o) s (fst (tagsToLabels (metrics.Tags s) (config o)))
       = (m', (newts, None))
    /\ ts ∈ newts.

(** [transform] returns at most [k] series for one sample. *)
Definition transformAtMost (k : Z) : Prop :=
  forall m mp s labels m' newts,
    transform m mp s labels = (m', (newts, None)) -> len newts <= k.

(** ** The series of a batch, as the receiver sees them *)

#[global] Instance Label_eq_dec : EqDecision prompb.Label.
Proof. solve_decision. Defined.


(** The points a batch holds for the series with the label set [labels]:
    those of all its entries that carry this label set, in order.  The
    receiver takes the label set for the identity of a series. *)
Definition pointsOf (batch : list prompb.TimeSeries) (labels : list prompb.Label)
    : list prompb.Sample :=
  concat (prompb.Samples <$> filter (fun ts => prompb.Labels ts = labels) batch).


(** ** The conversion of whole containers, without a cap *)

(** The first sample of each metric name among the samples of [cs],
    converted one after the other from an empty batch. *)
Definition conversionOf (o : Output) (cs : list metrics.SampleContainer)
    : list prompb.TimeSeries * Output :=
  foldl convertSample ([], o) (firstPerName [] (samplesOf cs)).

(** [n] is the number of containers a call processes under the toggle
    [flag]: all of them when the toggle is clear; with the toggle set, the
    least number, one at least, whose conversion leaves more than 150000
    series, and all of them when there is no such number. *)
Definition processedPrefix (flag : bool) (o : Output)
    (cs : list metrics.SampleContainer) (n : nat) : Prop :=
  (n <= length cs)%nat
  /\ (flag = false -> n = length cs)
  /\ ((n < length cs)%nat ->
      flag = true /\ 150000 < len (fst (conversionOf o (take n cs))))
  /\ (flag = true -> forall k : nat, (0 < k < n)%nat ->
      len (fst (conversionOf o (take k cs))) <= 150000).

End Remotewrite.

(** ** [New] *)

(** The fields of [output.Params] that [New] reads. *)
Record Params : Type := mkParams {
  JSONConfig : bytes;
  Environment : gmap string string;
  ConfigArgument : string;
  Logger : list Entry
}.

(** What [New] calls and this file does not define: the consolidation of the
    configuration, the construction of the remote configuration and of the
    write client, the name of the configured mapping
    ([config.Mapping.String]), and the constructors of the metrics storage
    and of the mapping. *)
Class Constructors (Ext : Externals) : Type := {
  RemoteConfig : Type;
  GetConsolidatedConfig :
    bytes -> gmap string string -> string -> Config * option error;
  ConstructRemoteConfig : Config -> RemoteConfig * option error;
  NewWriteClient : string -> RemoteConfig -> WriteClient * option error;
  MappingString : Config -> string;
  newMetricsStorage : metricsStorage;
  NewMapping : string -> Mapping
}.

Section Construction.

Context `{Ext : Externals} `{Cons : !Constructors Ext}.

(** [New]: the logger as the call leaves it, and the new instance or the
    error. *)
Definition New (params : Params) : list Entry * (Output + error) :=
  match GetConsolidatedConfig (JSONConfig params) (Environment params)
          (ConfigArgument params) with
  | (_, Some err) => (Logger params, inr err)
  | (config, None) =>
      match ConstructRemoteConfig config with
      | (_, Some err) => (Logger params, inr err)
      | (remoteConfig, None) =>
          match NewWriteClient "xk6-prwo" remoteConfig with
          | (_, Some err) => (Logger params, inr err)
          | (client, None) =>
              let lg :=
                Logger params
                ++ [mkEntry InfoLevel None None
                      (Text ("Prometheus: configuring remote-write with "
                             +:+ MappingString config +:+ " mapping"))] in
              (lg,
               inl (mkOutput config client newMetricsStorage
                      (NewMapping (MappingString config)) [] lg))
          end
      end
  end.

(** The mapping of the instance is the one its configuration names. *)
Definition mappingFollowsConfig (o : Output) : Prop :=
  mapping o = NewMapping (MappingString (config o)).

(** The entry [New] writes when it has built the instance. *)
Definition configuringEntry (cfg : Config) : Entry :=
  mkEntry InfoLevel None None
    (Text ("Prometheus: configuring remote-write with "
           +:+ MappingString cfg +:+ " mapping")).

End Construction.

(** ** Test doubles

    A concrete set of collaborators, used to run the code on examples. *)

Module Demo.

Inductive DemoMapping : Type := RawMapping | FanoutMapping.

(** A write client that records what it was given and refuses everything
    while [up] is [false]. *)
Record DemoClient : Type := mkClient {
  up : bool;
  sent : list bytes
}.

(** Labels in key order; a tag named [bad] cannot be represented. *)
Definition demoTagsToLabels (tags : gmap string string) (cfg : Duration)
    : list prompb.Label * option error :=
  if bool_decide (is_Some (tags !! "bad"%string))
  then ([], Some "tag value cannot be represented"%string)
  else ((fun kv : string * string => prompb.mkLabel kv.1 kv.2) <$> map_to_list tags, None).

Definition onePoint (labels : list prompb.Label) (s : metrics.Sample) : prompb.TimeSeries :=
  prompb.mkTimeSeries labels [prompb.mkSample (metrics.Value s) (metrics.Time s)].

(** The storage is the list of the calls made so far.  The raw mapping
    gives one series of one point and refuses trend metrics and tags named
    as the name label; the fan-out
    mapping gives as many copies of that series as the value says, without
    the name label. *)
Definition demoTransform (m : list (metrics.Sample * list prompb.Label))
    (mp : DemoMapping) (s : metrics.Sample) (labels : list prompb.Label)
    : list (metrics.Sample * list prompb.Label) * (list prompb.TimeSeries * option error) :=
  (m ++ [(s, labels)],
   match mp, metrics.Type_ (metrics.Metric_ s) with
   | RawMapping, metrics.Trend =>
       ([], Some "trend metric is incompatible with the raw mapping"%string)
   | RawMapping, _ =>
       if existsb (fun lb => bool_decide (prompb.LName lb = "__name__"%string)) labels
       then ([], Some "a tag collides with the name label"%string)
       else
         ([onePoint
             (prompb.mkLabel "__name__" (metrics.Name (metrics.Metric_ s)) :: labels) s],
          None)
   | FanoutMapping, _ =>
       (replicate (Z.to_nat (metrics.Value s)) (onePoint labels s), None)
   end).

Definition demoStore (c : DemoClient) (b : bytes) : DemoClient * option error :=
  (mkClient (up c) (sent c ++ [b]),
   if up c then None else Some "connection refused"%string).

(** One byte per series; a series without labels cannot be marshalled. *)
Definition demoMarshal (req : prompb.WriteRequest) : bytes * option error :=
  if forallb (fun ts => negb (bool_decide (prompb.Labels ts = [])))
             (prompb.Timeseries req)
  then ((fun _ => Byte.x01) <$> prompb.Timeseries req, None)
  else ([], Some "series without labels"%string).

Definition demoSnappy (b : bytes) : option bytes := Some (Byte.xff :: b).

Definition ext : Externals := {|
  Config := Duration;
  FlushPeriod := fun c => c;
  Mapping := DemoMapping;
  metricsStorage := list (metrics.Sample * list prompb.Label);
  tagsToLabels := demoTagsToLabels;
  transform := demoTransform;
  WriteClient := DemoClient;
  Store := demoStore;
  Marshal := demoMarshal;
  snappyEncode := demoSnappy
|}.

#[local] Existing Instance ext.

Definition sample (name : string) (ty : metrics.MetricType)
    (time : Z) (tags : list (string * string)) (value : float64) : metrics.Sample :=
  metrics.mkSample (metrics.mkMetric name ty) time (list_to_map tags) value.

(** Three samples of one metric with different tags and one timestamp. *)
Definition req1 : metrics.Sample :=
  sample "http_reqs" metrics.Counter 1000 [("method", "GET")]%string 1.
Definition req2 : metrics.Sample :=
  sample "http_reqs" metrics.Counter 1000 [("method", "POST")]%string 2.
Definition req3 : metrics.Sample :=
  sample "http_reqs" metrics.Counter 1000 [("method", "PUT")]%string 3.
Definition vus : metrics.Sample :=
  sample "vus" metrics.Gauge 1000 [] 10.
(** A trend sample, which the raw mapping refuses. *)
Definition dur1 : metrics.Sample :=
  sample "req_duration" metrics.Trend 1000 [] 7.
(** A sample with a tag the raw mapping refuses, and a later sample of the
    same metric with a harmless tag. *)
Definition evil : metrics.Sample :=
  sample "cpu" metrics.Gauge 1000 [("__name__", "evil")]%string 5.
Definition cpu2 : metrics.Sample :=
  sample "cpu" metrics.Gauge 1001 [("host", "a")]%string 6.
(** A sample without tags, which fans out into one series without labels. *)
Definition bare : metrics.Sample :=
  sample "bare" metrics.Counter 1000 [] 1.
(** A sample whose tags cannot be turned into labels. *)
Definition badTags : metrics.Sample :=
  sample "checks" metrics.Rate 1000 [("bad", "x")]%string 1.
(** A sample that fans out into 150001 series, and a small one. *)
Definition big : metrics.Sample :=
  sample "big" metrics.Counter 1000 [("k", "v")]%string 150001.
Definition small : metrics.Sample :=
  sample "small" metrics.Counter 1000 [("k", "v")]%string 1.

Definition output (period : Duration) (mp : DemoMapping) (isUp : bool)
    (buffer : list metrics.SampleContainer) : Output :=
  mkOutput period (mkClient isUp []) [] mp buffer [].

Definition container (l : list metrics.Sample) : metrics.SampleContainer :=
  metrics.mkContainer l.

(** The loop state at the start of a call on [o]. *)
Definition start (o : Output) : Conv := mkConv [] ∅ o.

(** An instance with the raw mapping, a flush period of 5 and three
    samples of one metric in its buffer. *)
Definition rawOutput : Output :=
  output 5 RawMapping true [container [req1; req2]; container [req3; vus]].

(** The same with an unreachable endpoint. *)
Definition downOutput : Output :=
  output 5 RawMapping false [container [req1; req2]; container [req3; vus]].

(** An instance whose batch cannot be marshalled. *)
Definition bareOutput : Output :=
  output 5 FanoutMapping true [container [bare]].

(** An instance whose first container alone passes the threshold. *)
Definition fanOutput : Output :=
  output 5 FanoutMapping true [container [big]; container [small]].

Definition idleOutput : Output := output 5 RawMapping true [].

(** A process with two instances. *)
Definition twoOutputs : Process :=
  mkProcess false (<[0%nat := rawOutput]> (<[1%nat := fanOutput]> ∅)).


(** A second set of collaborators: the raw mapping only, and a compressor
    that always panics. *)
Definition strict : Externals := {|
  Config := Duration;
  FlushPeriod := fun c => c;
  Mapping := unit;
  metricsStorage := list (metrics.Sample * list prompb.Label);
  tagsToLabels := demoTagsToLabels;
  transform := fun m _ s labels => demoTransform m RawMapping s labels;
  WriteClient := DemoClient;
  Store := demoStore;
  Marshal := demoMarshal;
  snappyEncode := fun _ => None
|}.

Definition strictOutput : @Output strict :=
  @mkOutput strict 5 (mkClient true []) [] tt
    [container [req1; req2]; container [req3; vus]] [].

(** Constructors for the first set: the configuration is the flush period
    read from the argument, which must not be empty; the endpoint comes
    from the environment. *)
Definition demoConstructors : Constructors ext := {|
  RemoteConfig := string;
  GetConsolidatedConfig := fun _ _ arg =>
    if bool_decide (arg = ""%string)
    then (0, Some "no flush period"%string)
    else (Z.of_nat (String.length arg), None);
  ConstructRemoteConfig := fun _ => ("http://localhost:9090/api/v1/write"%string, None);
  NewWriteClient := fun _ _ => (mkClient true [], None);
  MappingString := fun _ => "raw"%string;
  newMetricsStorage := [];
  NewMapping := fun name =>
    if bool_decide (name = "raw"%string) then RawMapping else FanoutMapping
|}.

#[local] Existing Instance demoConstructors.

Definition goodParams : Params := mkParams [] ∅ "12345" [].
Definition badParams : Params := mkParams [] ∅ "" [].

End Demo.

(** * Properties *)

Section Properties.

Context `{Ext : Externals}.

Implicit Types (st : Conv) (o : Output) (s : metrics.Sample)
  (l : list metrics.Sample) (cs : list metrics.SampleContainer)
  (c : metrics.SampleContainer) (flag : bool).

(** ** The [seen] map *)

Lemma isSeen_empty (name : string) : isSeen ∅ name = false.
Proof. unfold isSeen. by rewrite lookup_empty. Qed.

Lemma isSeen_insert_eq (sn : gmap string bool) (name : string) :
  isSeen (<[name := true]> sn) name = true.
Proof. unfold isSeen. by rewrite lookup_insert_eq. Qed.

Lemma isSeen_insert_ne (sn : gmap string bool) (name name' : string) :
  name ≠ name' -> isSeen (<[name := true]> sn) name' = isSeen sn name'.
Proof. intros Hne. unfold isSeen. by rewrite lookup_insert_ne. Qed.

Lemma isSeen_insert_mono (sn : gmap string bool) (name name' : string) :
  isSeen sn name' = true -> isSeen (<[name := true]> sn) name' = true.
Proof.
  intros Hs. destruct (decide (name = name')) as [->|Hne].
  - apply isSeen_insert_eq.
  - by rewrite isSeen_insert_ne.
Qed.

(** ** One sample *)

Lemma sampleStep_seen st s :
  isSeen (seen st) (nameOf s) = true -> sampleStep st s = st.
Proof. intros Hs. unfold sampleStep. fold (nameOf s). by rewrite Hs. Qed.

Lemma sampleStep_unseen st s :
  isSeen (seen st) (nameOf s) = false ->
  (promTimeSeries (sampleStep st s), recv (sampleStep st s))
    = convertSample (promTimeSeries st, recv st) s
  /\ seen (sampleStep st s) = <[nameOf s := true]> (seen st).
Proof.
  intros Hs. unfold sampleStep, convertSample. fold (nameOf s). rewrite Hs.
  destruct (tagsToLabels _ _) as [labels lerr].
  destruct (transform _ _ _ _) as [m [newts [e|]]]; simpl; done.
Qed.

Lemma sampleStep_marks st s :
  isSeen (seen (sampleStep st s)) (nameOf s) = true.
Proof.
  destruct (isSeen (seen st) (nameOf s)) eqn:Hs.
  - by rewrite sampleStep_seen.
  - destruct (sampleStep_unseen st s Hs) as [_ ->]. apply isSeen_insert_eq.
Qed.

Lemma sampleStep_seen_mono st s (name : string) :
  isSeen (seen st) name = true -> isSeen (seen (sampleStep st s)) name = true.
Proof.
  intros Hn. destruct (isSeen (seen st) (nameOf s)) eqn:Hs.
  - by rewrite sampleStep_seen.
  - destruct (sampleStep_unseen st s Hs) as [_ ->]. by apply isSeen_insert_mono.
Qed.

(** ** The inner loop *)

Lemma samplesLoop_cons st s l :
  samplesLoop st (s :: l) = samplesLoop (sampleStep st s) l.
Proof. reflexivity. Qed.

Lemma samplesLoop_app st l1 l2 :
  samplesLoop st (l1 ++ l2) = samplesLoop (samplesLoop st l1) l2.
Proof. unfold samplesLoop. apply foldl_app. Qed.

Lemma SeenIs_empty : SeenIs ∅ [].
Proof.
  intros name. rewrite isSeen_empty. split; [done|].
  simpl. intros Hin. by apply not_elem_of_nil in Hin.
Qed.

Lemma SeenIs_skip (sn : gmap string bool) earlier s :
  SeenIs sn earlier -> isSeen sn (nameOf s) = true -> SeenIs sn (earlier ++ [s]).
Proof.
  intros Hinv Hs name. rewrite fmap_app, elem_of_app. simpl.
  rewrite list_elem_of_singleton. split.
  - intros Hn. left. by apply Hinv.
  - intros [Hin | ->]; [by apply Hinv | done].
Qed.

Lemma SeenIs_mark (sn : gmap string bool) earlier s :
  SeenIs sn earlier -> SeenIs (<[nameOf s := true]> sn) (earlier ++ [s]).
Proof.
  intros Hinv name. rewrite fmap_app, elem_of_app. simpl.
  rewrite list_elem_of_singleton.
  destruct (decide (nameOf s = name)) as [<-|Hne].
  - rewrite isSeen_insert_eq. split; [by right | done].
  - rewrite isSeen_insert_ne by done. rewrite (Hinv name). split.
    + by left.
    + intros [Hin | ->]; [done | congruence].
Qed.

Lemma samplesLoop_firstPerName l : forall st earlier,
  SeenIs (seen st) earlier ->
  (promTimeSeries (samplesLoop st l), recv (samplesLoop st l))
    = foldl convertSample (promTimeSeries st, recv st) (firstPerName earlier l)
  /\ SeenIs (seen (samplesLoop st l)) (earlier ++ l).
Proof.
  induction l as [|s l IH]; intros st earlier Hinv.
  - simpl. by rewrite app_nil_r.
  - rewrite samplesLoop_cons. cbn [firstPerName].
    replace (earlier ++ s :: l) with ((earlier ++ [s]) ++ l)
      by (by rewrite <- app_assoc).
    case_bool_decide as Hin.
    + apply Hinv in Hin. rewrite (sampleStep_seen _ _ Hin).
      apply IH. by apply SeenIs_skip.
    + assert (isSeen (seen st) (nameOf s) = false) as Hs.
      { destruct (isSeen (seen st) (nameOf s)) eqn:E; [|done].
        exfalso. apply Hin. by apply Hinv. }
      destruct (sampleStep_unseen st s Hs) as [Hconv Hseen].
      destruct (IH (sampleStep st s) (earlier ++ [s])) as [Hout Hinv'].
      { rewrite Hseen. by apply SeenIs_mark. }
      split; [|done]. rewrite Hout. simpl. by rewrite Hconv.
Qed.

(** ** The outer loop *)

Lemma samplesOf_cons c cs :
  samplesOf (c :: cs) = metrics.GetSamples c ++ samplesOf cs.
Proof. reflexivity. Qed.

(** With the toggle clear the outer loop runs the inner loop over all the
    samples of all the containers. *)
Lemma containersLoop_false_samplesOf cs : forall st,
  containersLoop false cs st = samplesLoop st (samplesOf cs).
Proof.
  induction cs as [|c cs IH]; intros st; [done|].
  rewrite samplesOf_cons, samplesLoop_app. simpl. apply IH.
Qed.

(** The loop converts a prefix of the containers: all of them when the
    toggle is clear, and otherwise the shortest non-empty prefix that
    leaves more than 150000 series, or all when there is none. *)
Lemma containersLoop_prefix cs : forall flag st,
  exists n : nat,
    (n <= length cs)%nat
    /\ containersLoop flag cs st = containersLoop false (take n cs) st
    /\ (flag = false -> n = length cs)
    /\ ((n < length cs)%nat ->
        flag = true
        /\ 150000 < len (promTimeSeries (containersLoop false (take n cs) st)))
    /\ (flag = true -> forall k : nat, (0 < k < n)%nat ->
        len (promTimeSeries (containersLoop false (take k cs) st)) <= 150000).
Proof.
  induction cs as [|c cs IH]; intros flag st.
  - exists 0%nat. simpl. split_and!; try done; lia.
  - cbn [containersLoop].
    set (st1 := samplesLoop st (metrics.GetSamples c)).
    destruct (flag && (150000 <? len (promTimeSeries st1))) eqn:Hbrk.
    + apply andb_true_iff in Hbrk as [-> Hlen]. apply Z.ltb_lt in Hlen.
      exists 1%nat. simpl. fold st1. split_and!; try done; try lia.
    + destruct (IH flag st1) as (n & Hn & Heq & Hall & Hcut & Hmin).
      exists (S n). cbn [take containersLoop length]. fold st1. simpl.
      split_and!.
      * lia.
      * done.
      * intros Hf. by rewrite (Hall Hf).
      * intros Hlt. apply Hcut. lia.
      * intros -> k Hk. destruct k as [|k]; [lia|].
        cbn [take containersLoop]. fold st1. simpl.
        destruct k as [|k].
        -- simpl. simpl in Hbrk. by apply Z.ltb_ge in Hbrk.
        -- apply (Hmin eq_refl (S k)). lia.
Qed.

Lemma convertToTimeSeries_prefix flag o cs :
  exists n : nat,
    (n <= length cs)%nat
    /\ convertToTimeSeries flag o cs = convertToTimeSeries false o (take n cs)
    /\ (flag = false -> n = length cs)
    /\ ((n < length cs)%nat ->
        flag = true
        /\ 150000 < len (fst (convertToTimeSeries false o (take n cs))))
    /\ (flag = true -> forall k : nat, (0 < k < n)%nat ->
        len (fst (convertToTimeSeries false o (take k cs))) <= 150000).
Proof.
  destruct (containersLoop_prefix cs flag (mkConv [] ∅ o))
    as (n & Hn & Heq & Hall & Hcut & Hmin).
  exists n. unfold convertToTimeSeries. simpl. rewrite Heq. done.
Qed.

(** ** The samples that are converted *)

Lemma firstPerName_names l : forall earlier,
  NoDup (nameOf <$> firstPerName earlier l)
  /\ (forall s, s ∈ firstPerName earlier l -> nameOf s ∉ nameOf <$> earlier).
Proof.
  induction l as [|s l IH]; intros earlier.
  - simpl. split; [constructor|]. intros s Hs. by apply not_elem_of_nil in Hs.
  - cbn [firstPerName].
    destruct (IH (earlier ++ [s])) as [Hnd Hout].
    assert (forall x, x ∈ firstPerName (earlier ++ [s]) l ->
              (nameOf x ∉ nameOf <$> earlier) /\ (nameOf x ≠ nameOf s)) as Hout'.
    { intros x Hx. specialize (Hout x Hx).
      rewrite fmap_app, not_elem_of_app in Hout. simpl in Hout.
      destruct Hout as [H1 H2]. split; [done|].
      intros Heq. apply H2. rewrite Heq. apply list_elem_of_here. }
    case_bool_decide as Hin.
    + split; [done|]. intros x Hx. by apply Hout'.
    + split.
      * rewrite fmap_cons. constructor; [|done].
        intros Hmem. apply list_elem_of_fmap in Hmem as (x & Hname & Hx).
        destruct (Hout' x Hx) as [_ Hne]. congruence.
      * intros x Hx. apply elem_of_cons in Hx as [->|Hx]; [done|].
        by apply Hout'.
Qed.

Lemma firstPerName_sublist l : forall earlier,
  firstPerName earlier l `sublist_of` l.
Proof.
  induction l as [|s l IH]; intros earlier; cbn [firstPerName].
  - done.
  - case_bool_decide.
    + apply sublist_cons. apply IH.
    + apply sublist_skip. apply IH.
Qed.

Lemma convertToTimeSeries_false_firstPerName o cs :
  convertToTimeSeries false o cs
    = foldl convertSample ([], o) (firstPerName [] (samplesOf cs)).
Proof.
  unfold convertToTimeSeries. rewrite containersLoop_false_samplesOf.
  destruct (samplesLoop_firstPerName (samplesOf cs) (mkConv [] ∅ o) [])
    as [Hout _]; [apply SeenIs_empty|].
  exact Hout.
Qed.

(** ** What the conversion leaves alone *)

Lemma convFrame_refl o : convFrame o o.
Proof. unfold convFrame. done. Qed.

Lemma convFrame_trans o1 o2 o3 :
  convFrame o1 o2 -> convFrame o2 o3 -> convFrame o1 o3.
Proof.
  unfold convFrame. intros (?&?&?&?&?) (?&?&?&?&?).
  split_and!; try congruence. by etrans.
Qed.

Lemma convFrame_log o e : convFrame o (log o e).
Proof. unfold convFrame. simpl. split_and!; try done. by apply prefix_app_r. Qed.

Lemma convFrame_setMetrics o m : convFrame o (setMetrics o m).
Proof. unfold convFrame. done. Qed.

Lemma sampleStep_frame st s : convFrame (recv st) (recv (sampleStep st s)).
Proof.
  unfold sampleStep.
  destruct (isSeen _ _); [apply convFrame_refl|].
  destruct (tagsToLabels _ _) as [labels lerr].
  assert (convFrame (recv st)
            (match lerr with Some e => logError (recv st) e | None => recv st end))
    as H1.
  { destruct lerr; [apply convFrame_log | apply convFrame_refl]. }
  destruct (transform _ _ _ _) as [m [newts [e|]]]; simpl.
  - eapply convFrame_trans; [exact H1|].
    eapply convFrame_trans; [apply convFrame_setMetrics | apply convFrame_log].
  - eapply convFrame_trans; [exact H1 | apply convFrame_setMetrics].
Qed.

Lemma samplesLoop_frame l : forall st, convFrame (recv st) (recv (samplesLoop st l)).
Proof.
  induction l as [|s l IH]; intros st; [apply convFrame_refl|].
  rewrite samplesLoop_cons.
  eapply convFrame_trans; [apply sampleStep_frame | apply IH].
Qed.

Lemma containersLoop_frame flag cs : forall st,
  convFrame (recv st) (recv (containersLoop flag cs st)).
Proof.
  induction cs as [|c cs IH]; intros st; [apply convFrame_refl|].
  cbn [containersLoop].
  destruct (flag && _); [apply samplesLoop_frame|].
  eapply convFrame_trans; [apply samplesLoop_frame | apply IH].
Qed.

Lemma convertToTimeSeries_frame flag o cs :
  convFrame o (snd (convertToTimeSeries flag o cs)).
Proof. apply (containersLoop_frame flag cs (mkConv [] ∅ o)). Qed.

(** ** Samples skipped because of their name *)

Lemma samplesLoop_seen_mono l : forall st (name : string),
  isSeen (seen st) name = true -> isSeen (seen (samplesLoop st l)) name = true.
Proof.
  induction l as [|s l IH]; intros st name Hn; [done|].
  rewrite samplesLoop_cons. apply IH. by apply sampleStep_seen_mono.
Qed.

Lemma withoutName_cons_eq (name : string) s l :
  nameOf s = name -> withoutName name (s :: l) = withoutName name l.
Proof. intros Heq. unfold withoutName. by rewrite filter_cons_False by auto. Qed.

Lemma withoutName_cons_ne (name : string) s l :
  nameOf s ≠ name -> withoutName name (s :: l) = s :: withoutName name l.
Proof. intros Hne. unfold withoutName. by rewrite filter_cons_True. Qed.

Lemma samplesLoop_withoutName (name : string) l : forall st,
  isSeen (seen st) name = true ->
  samplesLoop st l = samplesLoop st (withoutName name l).
Proof.
  induction l as [|s l IH]; intros st Hn; [done|].
  destruct (decide (nameOf s = name)) as [Heq|Hne].
  - rewrite withoutName_cons_eq by done. rewrite samplesLoop_cons.
    rewrite sampleStep_seen by (by rewrite Heq). by apply IH.
  - rewrite withoutName_cons_ne by done. rewrite !samplesLoop_cons.
    apply IH. by apply sampleStep_seen_mono.
Qed.

Lemma containersLoop_withoutName (name : string) flag cs : forall st,
  isSeen (seen st) name = true ->
  containersLoop flag cs st
    = containersLoop flag (containerWithoutName name <$> cs) st.
Proof.
  induction cs as [|c cs IH]; intros st Hn; [done|].
  rewrite fmap_cons. cbn [containersLoop containerWithoutName metrics.GetSamples].
  rewrite <- (samplesLoop_withoutName name _ st Hn).
  destruct (flag && _); [done|].
  apply IH. by apply samplesLoop_seen_mono.
Qed.

(** ** The deferred closure and the tail of [flush] *)

Lemma flushDeferred_flag (d : Duration) (nts : Z) o :
  fst (flushDeferred d nts o) = (FlushPeriod (config o) <? d).
Proof. unfold flushDeferred. by destruct (_ <? _). Qed.

Lemma flushDeferred_frame (d : Duration) (nts : Z) o :
  let o' := snd (flushDeferred d nts o) in
  config o' = config o /\ client o' = client o /\ metrics_ o' = metrics_ o
  /\ mapping o' = mapping o /\ SampleBuffer o' = SampleBuffer o
  /\ logger o' = logger o ++
       [if FlushPeriod (config o) <? d
        then mkEntry WarnLevel (Some nts) None
               (RemoteWriteTookWhile d (FlushPeriod (config o)))
        else mkEntry DebugLevel (Some nts) None (RemoteWriteTook d)].
Proof. unfold flushDeferred. by destruct (_ <? _). Qed.

Lemma flush_unfold (d : Duration) flag o :
  flush d flag o
    = sendTimeSeries d flag
        (convertToTimeSeries flag (setSampleBuffer o []) (SampleBuffer o)).
Proof. reflexivity. Qed.

Lemma flushBatch_unfold flag o :
  flushBatch flag o
    = fst (convertToTimeSeries flag (setSampleBuffer o []) (SampleBuffer o)).
Proof. reflexivity. Qed.

(** The receiver as the conversion of one flush leaves it. *)
Lemma flush_conversion_frame flag o :
  let o1 := snd (convertToTimeSeries flag (setSampleBuffer o []) (SampleBuffer o)) in
  config o1 = config o /\ client o1 = client o /\ mapping o1 = mapping o
  /\ SampleBuffer o1 = [].
Proof.
  destruct (convertToTimeSeries_frame flag (setSampleBuffer o []) (SampleBuffer o))
    as (Hc & Hcl & Hm & Hb & _).
  simpl in *. done.
Qed.

(** A flush that goes back to its caller has run its deferred closure on
    some receiver with the configuration of [o]. *)
Lemma flush_ran_deferred (d : Duration) flag o (r : bool * Output) :
  stateAfter (flush d flag o) = Some r ->
  exists o2, r = flushDeferred d (len (flushBatch flag o)) o2
             /\ config o2 = config o.
Proof.
  rewrite flush_unfold, flushBatch_unfold.
  destruct (flush_conversion_frame flag o) as (Hc & _).
  destruct (convertToTimeSeries _ _ _) as [pts o1]. simpl in Hc.
  unfold sendTimeSeries. simpl.
  destruct (Marshal _) as [buf [err|]]; [done|].
  destruct (snappyEncode buf) as [encoded|].
  - destruct (Store _ _) as [c serr]. simpl. intros [= <-].
    eexists. split; [done|]. by destruct serr.
  - simpl. intros [= <-]. eexists. split; [done|]. done.
Qed.

(** ** The claims about [convertToTimeSeries] *)

(** C1. Within one call of [convertToTimeSeries] a sample whose metric name
    is the name of a sample processed earlier in the call is skipped: the
    loop state is left as it was.  The call is the conversion, one after
    the other, of the first sample of each metric name among the samples
    of the containers it processes (all of them when the toggle is clear):
    those samples, and no others, have their labels built and are passed
    to [transform], and they carry pairwise different metric names. *)
Theorem convertToTimeSeries_first_sample_per_name flag o cs :
  (forall st earlier s,
      SeenIs (seen st) earlier -> nameOf s ∈ nameOf <$> earlier ->
      sampleStep st s = st)
  /\ exists n : nat,
      (n <= length cs)%nat
      /\ (flag = false -> n = length cs)
      /\ NoDup (nameOf <$> firstPerName [] (samplesOf (take n cs)))
      /\ firstPerName [] (samplesOf (take n cs)) `sublist_of` samplesOf (take n cs)
      /\ convertToTimeSeries flag o cs
           = foldl convertSample ([], o) (firstPerName [] (samplesOf (take n cs))).
Proof.
  split.
  - intros st earlier s Hinv Hin. apply sampleStep_seen. by apply Hinv.
  - destruct (convertToTimeSeries_prefix flag o cs) as (n & Hn & Heq & Hall & _).
    exists n. split_and!; [done | done | | |].
    + apply firstPerName_names.
    + apply firstPerName_sublist.
    + rewrite Heq. apply convertToTimeSeries_false_firstPerName.
Qed.

(** C6. When [transform] returns an error for a sample, the error is
    logged, the batch is left as it was, and the loops go on with the
    samples and containers that follow. *)
Theorem transform_error_drops_only_that_sample
    st s (labels : list prompb.Label) (lerr : option error)
    (m : metricsStorage) (newts : list prompb.TimeSeries) (e : error) :
  isSeen (seen st) (nameOf s) = false ->
  tagsToLabels (metrics.Tags s) (config (recv st)) = (labels, lerr) ->
  transform (metrics_ (recv st)) (mapping (recv st)) s labels = (m, (newts, Some e)) ->
  promTimeSeries (sampleStep st s) = promTimeSeries st
  /\ logger (recv (sampleStep st s))
       = logger (recv st)
         ++ match lerr with Some le => [errorEntry le] | None => [] end
         ++ [errorEntry e]
  /\ metrics_ (recv (sampleStep st s)) = m
  /\ (forall rest, samplesLoop st (s :: rest) = samplesLoop (sampleStep st s) rest)
  /\ (forall flag rest cs,
        containersLoop flag (metrics.mkContainer (s :: rest) :: cs) st
          = containersLoop flag (metrics.mkContainer rest :: cs) (sampleStep st s)).
Proof.
  intros Hs Hl Ht.
  assert (sampleStep st s
          = mkConv (promTimeSeries st) (<[nameOf s := true]> (seen st))
              (logError
                 (setMetrics
                    (match lerr with
                     | Some le => logError (recv st) le
                     | None => recv st
                     end) m) e)) as Hstep.
  { unfold sampleStep. fold (nameOf s). rewrite Hs, Hl.
    destruct lerr; simpl; by rewrite Ht. }
  split_and!.
  - by rewrite Hstep.
  - rewrite Hstep. destruct lerr; simpl; by rewrite <- ?app_assoc.
  - rewrite Hstep. by destruct lerr.
  - intros rest. apply samplesLoop_cons.
  - intros flag rest cs. reflexivity.
Qed.

(** C7. When [tagsToLabels] fails for a sample, and a failing
    [tagsToLabels] returns no labels, the failure is logged, [transform]
    is called on the sample with no labels and its result is used as for
    any other sample, and the loops go on with the samples and containers
    that follow. *)
Theorem label_error_converts_with_empty_labels
    st s (labels : list prompb.Label) (e : error)
    (m : metricsStorage) (newts : list prompb.TimeSeries) (terr : option error) :
  tagsToLabelsEmptyOnError ->
  isSeen (seen st) (nameOf s) = false ->
  tagsToLabels (metrics.Tags s) (config (recv st)) = (labels, Some e) ->
  transform (metrics_ (recv st)) (mapping (recv st)) s [] = (m, (newts, terr)) ->
  labels = []
  /\ metrics_ (recv (sampleStep st s)) = m
  /\ promTimeSeries (sampleStep st s)
       = promTimeSeries st ++ match terr with Some _ => [] | None => newts end
  /\ logger (recv (sampleStep st s))
       = logger (recv st) ++ [errorEntry e]
         ++ match terr with Some te => [errorEntry te] | None => [] end
  /\ (forall rest, samplesLoop st (s :: rest) = samplesLoop (sampleStep st s) rest)
  /\ (forall flag rest cs,
        containersLoop flag (metrics.mkContainer (s :: rest) :: cs) st
          = containersLoop flag (metrics.mkContainer rest :: cs) (sampleStep st s)).
Proof.
  intros Hnil Hs Hl Ht.
  assert (labels = []) as -> by (by eapply Hnil).
  assert (sampleStep st s
          = mkConv
              (promTimeSeries st ++ match terr with Some _ => [] | None => newts end)
              (<[nameOf s := true]> (seen st))
              (match terr with
               | Some te => logError (setMetrics (logError (recv st) e) m) te
               | None => setMetrics (logError (recv st) e) m
               end)) as Hstep.
  { unfold sampleStep. fold (nameOf s). rewrite Hs, Hl. simpl. rewrite Ht.
    destruct terr; [by rewrite app_nil_r | done]. }
  split_and!.
  - done.
  - rewrite Hstep. by destruct terr.
  - by rewrite Hstep.
  - rewrite Hstep. destruct terr; simpl; by rewrite <- ?app_assoc, ?app_nil_r.
  - intros rest. apply samplesLoop_cons.
  - intros flag rest cs. reflexivity.
Qed.

(** C9. Once a sample has been through the loop body its metric name is
    marked as seen, whatever [tagsToLabels] and [transform] returned, so
    the rest of the call runs as if every later sample of that name had
    been removed from the input.  When [transform] failed for that first
    sample the batch did not grow either: no series of the call comes from
    a sample of that metric name. *)
Theorem failed_first_sample_hides_its_metric st s :
  isSeen (seen (sampleStep st s)) (nameOf s) = true
  /\ (forall rest,
        samplesLoop (sampleStep st s) rest
          = samplesLoop (sampleStep st s) (withoutName (nameOf s) rest))
  /\ (forall flag rest cs,
        containersLoop flag (metrics.mkContainer (s :: rest) :: cs) st
          = containersLoop flag
              (metrics.mkContainer (withoutName (nameOf s) rest)
                 :: (containerWithoutName (nameOf s) <$> cs))
              (sampleStep st s))
  /\ (forall (labels : list prompb.Label) (lerr : option error)
         (m : metricsStorage) (newts : list prompb.TimeSeries) (e : error),
        isSeen (seen st) (nameOf s) = false ->
        tagsToLabels (metrics.Tags s) (config (recv st)) = (labels, lerr) ->
        transform (metrics_ (recv st)) (mapping (recv st)) s labels
          = (m, (newts, Some e)) ->
        promTimeSeries (sampleStep st s) = promTimeSeries st).
Proof.
  pose proof (sampleStep_marks st s) as Hm.
  split_and!.
  - done.
  - intros rest. by apply samplesLoop_withoutName.
  - intros flag rest cs.
    change (containersLoop flag (metrics.mkContainer (s :: rest) :: cs) st)
      with (containersLoop flag (metrics.mkContainer rest :: cs) (sampleStep st s)).
    apply (containersLoop_withoutName (nameOf s) flag
             (metrics.mkContainer rest :: cs) (sampleStep st s) Hm).
  - intros labels lerr m newts e Hs Hl Ht.
    unfold sampleStep. fold (nameOf s). rewrite Hs, Hl.
    destruct lerr; simpl; by rewrite Ht.
Qed.

(** ** The claims about [flush] *)

(** C4. A flush goes back to its caller, by a return or a panic, unless
    marshalling fails and the fatal log entry ends the process.  After such
    a flush the toggle is set exactly when the elapsed time is greater than
    the flush period of the instance; the last entry logged is then a
    warning carrying the number of converted series, and otherwise a debug
    entry. *)
Theorem flush_sets_toggle_to_overrun (d : Duration) flag o :
  (snd (Marshal (prompb.mkWriteRequest (flushBatch flag o))) = None ->
   is_Some (stateAfter (flush d flag o)))
  /\ (forall flag' o',
        stateAfter (flush d flag o) = Some (flag', o') ->
        (flag' = true <-> FlushPeriod (config o) < d)
        /\ (FlushPeriod (config o) < d ->
            last (logger o')
              = Some (mkEntry WarnLevel (Some (len (flushBatch flag o))) None
                        (RemoteWriteTookWhile d (FlushPeriod (config o)))))
        /\ (d <= FlushPeriod (config o) ->
            last (logger o')
              = Some (mkEntry DebugLevel (Some (len (flushBatch flag o))) None
                        (RemoteWriteTook d)))).
Proof.
  split.
  - rewrite flush_unfold, flushBatch_unfold.
    destruct (convertToTimeSeries _ _ _) as [pts o1]. simpl.
    destruct (Marshal _) as [buf merr]. simpl. intros ->.
    destruct (snappyEncode buf); [|by eexists].
    destruct (Store _ _) as [c serr]. by eexists.
  - intros flag' o' Hret.
    destruct (flush_ran_deferred _ _ _ _ Hret) as (o2 & Hr & Hcfg).
    pose proof (flushDeferred_flag d (len (flushBatch flag o)) o2) as Hf.
    pose proof (flushDeferred_frame d (len (flushBatch flag o)) o2) as Hfr.
    rewrite <- Hr in Hf, Hfr. simpl in Hf, Hfr.
    destruct Hfr as (_ & _ & _ & _ & _ & Hlog).
    rewrite Hcfg in Hf, Hlog. rewrite Hlog, last_snoc, Hf.
    split_and!.
    + apply Z.ltb_lt.
    + intros Hlt. apply Z.ltb_lt in Hlt. by rewrite Hlt.
    + intros Hle. apply Z.ltb_ge in Hle. by rewrite Hle.
Qed.

(** C8. When [Store] returns an error, [flush] logs it and returns: the
    client was called once, the drained buffer stays empty, so that the
    next drain hands out only what was added since.  When marshalling
    fails, [flush] logs at the fatal level, which ends the process, and
    the client is not called. *)
Theorem store_error_is_logged_marshal_error_is_fatal (d : Duration) flag o :
  (forall (buf encoded : bytes) (c : WriteClient) (e : error),
      Marshal (prompb.mkWriteRequest (flushBatch flag o)) = (buf, None) ->
      snappyEncode buf = Some encoded ->
      Store (client o) encoded = (c, Some e) ->
      exists flag' o',
        flush d flag o = Returned (flag', o')
        /\ client o' = c
        /\ SampleBuffer o' = []
        /\ (exists last_entry,
              logger o'
                = logger (snd (convertToTimeSeries flag (setSampleBuffer o [])
                                 (SampleBuffer o)))
                  ++ [mkEntry DebugLevel (Some (len (flushBatch flag o))) None
                        (Text "Converted samples to time series in preparation for sending.");
                      mkEntry ErrorLevel None (Some e)
                        (Text "Failed to store timeseries.");
                      last_entry])
        /\ (forall cs, GetBufferedSamples (AddMetricSamples o' cs) = (cs, o')))
  /\ (forall (buf : bytes) (e : error),
        Marshal (prompb.mkWriteRequest (flushBatch flag o)) = (buf, Some e) ->
        exists o',
          flush d flag o = Exited (flag, o')
          /\ client o' = client o
          /\ logger o'
               = logger (snd (convertToTimeSeries flag (setSampleBuffer o [])
                                (SampleBuffer o)))
                 ++ [mkEntry DebugLevel (Some (len (flushBatch flag o))) None
                       (Text "Converted samples to time series in preparation for sending.");
                     mkEntry FatalLevel None (Some e)
                       (Text "Failed to marshal timeseries.")]).
Proof.
  rewrite flush_unfold, flushBatch_unfold.
  destruct (flush_conversion_frame flag o) as (_ & Hcl & _ & Hbuf).
  destruct (convertToTimeSeries _ _ _) as [pts o1]. simpl in Hcl, Hbuf. simpl.
  split.
  - intros buf encoded c e Hm Hz Hst. rewrite Hm, Hz, Hcl, Hst.
    unfold flushDeferred. simpl.
    destruct (_ <? _); eexists _, _; (split; [reflexivity|]); simpl;
      (split_and!; [done | done | | ]).
    + eexists. by rewrite <- !app_assoc.
    + intros cs. unfold GetBufferedSamples, AddMetricSamples, setSampleBuffer, log.
      simpl. by rewrite Hbuf.
    + eexists. by rewrite <- !app_assoc.
    + intros cs. unfold GetBufferedSamples, AddMetricSamples, setSampleBuffer, log.
      simpl. by rewrite Hbuf.
  - intros buf e Hm. rewrite Hm. eexists. split; [reflexivity|]. simpl.
    split; [done|]. by rewrite <- !app_assoc.
Qed.

(** C10. [flush] has no test on the number of series: whenever marshalling
    and compression go through, the compressed request is given to
    [Store], once.  With an empty buffer the batch is empty and the
    receiver untouched by the conversion, and the request marshalled is
    the one with no series. *)
Theorem flush_sends_even_an_empty_batch (d : Duration) flag o :
  (forall (buf encoded : bytes),
      Marshal (prompb.mkWriteRequest (flushBatch flag o)) = (buf, None) ->
      snappyEncode buf = Some encoded ->
      exists flag' o',
        flush d flag o = Returned (flag', o')
        /\ client o' = fst (Store (client o) encoded))
  /\ (SampleBuffer o = [] ->
      flushBatch flag o = []
      /\ convertToTimeSeries flag (setSampleBuffer o []) (SampleBuffer o) = ([], o)
      /\ forall (buf encoded : bytes),
          Marshal (prompb.mkWriteRequest []) = (buf, None) ->
          snappyEncode buf = Some encoded ->
          exists flag' o',
            flush d flag o = Returned (flag', o')
            /\ client o' = fst (Store (client o) encoded)).
Proof.
  assert (forall (buf encoded : bytes),
      Marshal (prompb.mkWriteRequest (flushBatch flag o)) = (buf, None) ->
      snappyEncode buf = Some encoded ->
      exists flag' o',
        flush d flag o = Returned (flag', o')
        /\ client o' = fst (Store (client o) encoded)) as Hsend.
  { rewrite flush_unfold, flushBatch_unfold.
    destruct (flush_conversion_frame flag o) as (_ & Hcl & _ & _).
    destruct (convertToTimeSeries _ _ _) as [pts o1]. simpl in Hcl. simpl.
    intros buf encoded Hm Hz. rewrite Hm, Hz, Hcl.
    destruct (Store _ _) as [c serr]. unfold flushDeferred. simpl.
    destruct serr, (_ <? _); eexists _, _; (split; [reflexivity|]); done. }
  split; [exact Hsend|].
  intros Hempty.
  assert (flushBatch flag o = []) as Hb.
  { rewrite flushBatch_unfold, Hempty. reflexivity. }
  split_and!.
  - done.
  - rewrite Hempty. destruct o. simpl in Hempty. subst. reflexivity.
  - intros buf encoded Hm Hz. apply (Hsend buf encoded); [|done]. by rewrite Hb.
Qed.


(** * Further properties of the conversion *)

(** The loop body either skips the sample or does the four things of lines
    148-161 with what the two helpers returned. *)
Lemma sampleStep_cases st s :
  (isSeen (seen st) (nameOf s) = true /\ sampleStep st s = st)
  \/ exists (labels : list prompb.Label) (lerr : option error)
       (m : metricsStorage) (newts : list prompb.TimeSeries) (terr : option error),
       isSeen (seen st) (nameOf s) = false
       /\ tagsToLabels (metrics.Tags s) (config (recv st)) = (labels, lerr)
       /\ transform (metrics_ (recv st)) (mapping (recv st)) s labels
          = (m, (newts, terr))
       /\ promTimeSeries (sampleStep st s)
          = promTimeSeries st ++ match terr with Some _ => [] | None => newts end
       /\ logger (recv (sampleStep st s))
          = logger (recv st)
            ++ match lerr with Some e => [errorEntry e] | None => [] end
            ++ match terr with Some e => [errorEntry e] | None => [] end
       /\ config (recv (sampleStep st s)) = config (recv st)
       /\ mapping (recv (sampleStep st s)) = mapping (recv st)
       /\ metrics_ (recv (sampleStep st s)) = m.
Proof.
  destruct (isSeen (seen st) (nameOf s)) eqn:Hs.
  - left. split; [done|]. by apply sampleStep_seen.
  - right. unfold sampleStep. fold (nameOf s). rewrite Hs.
    destruct (tagsToLabels _ _) as [labels lerr] eqn:Hl.
    assert (metrics_ (match lerr with
                      | Some e => logError (recv st) e
                      | None => recv st
                      end) = metrics_ (recv st)) as Hm by (by destruct lerr).
    assert (mapping (match lerr with
                     | Some e => logError (recv st) e
                     | None => recv st
                     end) = mapping (recv st)) as Hmp by (by destruct lerr).
    rewrite Hm, Hmp.
    destruct (transform _ _ _ _) as [m [newts terr]] eqn:Ht.
    exists labels, lerr, m, newts, terr.
    destruct lerr, terr; simpl; rewrite <- ?app_assoc, ?app_nil_r; done.
Qed.

Lemma sampleStep_prefix st s :
  promTimeSeries st `prefix_of` promTimeSeries (sampleStep st s)
  /\ logger (recv st) `prefix_of` logger (recv (sampleStep st s)).
Proof.
  destruct (sampleStep_cases st s) as [[_ ->] | (?&?&?&?&?&_&_&_&Hp&Hl&_)];
    [done|].
  rewrite Hp, Hl. split; apply prefix_app_r; done.
Qed.

Lemma samplesLoop_prefix l : forall st,
  promTimeSeries st `prefix_of` promTimeSeries (samplesLoop st l)
  /\ logger (recv st) `prefix_of` logger (recv (samplesLoop st l)).
Proof.
  induction l as [|s l IH]; intros st; [done|].
  rewrite samplesLoop_cons.
  destruct (sampleStep_prefix st s) as [H1 H2].
  destruct (IH (sampleStep st s)) as [H3 H4].
  split; by etrans.
Qed.

Lemma containersLoop_grows flag cs : forall st,
  promTimeSeries st `prefix_of` promTimeSeries (containersLoop flag cs st)
  /\ logger (recv st) `prefix_of` logger (recv (containersLoop flag cs st)).
Proof.
  induction cs as [|c cs IH]; intros st; [done|].
  cbn [containersLoop].
  destruct (samplesLoop_prefix (metrics.GetSamples c) st) as [H1 H2].
  destruct (flag && _); [done|].
  destruct (IH (samplesLoop st (metrics.GetSamples c))) as [H3 H4].
  split; by etrans.
Qed.

Lemma samplesOf_app cs1 cs2 :
  samplesOf (cs1 ++ cs2) = samplesOf cs1 ++ samplesOf cs2.
Proof. unfold samplesOf. by rewrite fmap_app, concat_app. Qed.

Lemma containersLoop_false_app cs1 cs2 st :
  containersLoop false (cs1 ++ cs2) st
    = containersLoop false cs2 (containersLoop false cs1 st).
Proof.
  rewrite !containersLoop_false_samplesOf, samplesOf_app. apply samplesLoop_app.
Qed.

(** Over [cs1 ++ cs2] the loop either stops inside [cs1], or runs through
    [cs1] without stopping and goes on with [cs2]. *)
Lemma containersLoop_app_cases cs1 : forall cs2 flag st,
  containersLoop flag (cs1 ++ cs2) st = containersLoop flag cs1 st
  \/ (containersLoop flag (cs1 ++ cs2) st
        = containersLoop flag cs2 (containersLoop flag cs1 st)
      /\ containersLoop flag cs1 st = containersLoop false cs1 st).
Proof.
  induction cs1 as [|c cs1 IH]; intros cs2 flag st.
  - right. done.
  - cbn [app containersLoop].
    destruct (flag && _) eqn:Hbrk; [by left|].
    simpl. apply IH.
Qed.

Lemma prefix_len {A : Type} (l1 l2 : list A) :
  l1 `prefix_of` l2 -> len l1 <= len l2.
Proof. intros H. apply prefix_length in H. unfold len. lia. Qed.

(** The call on the first [n] containers, toggle clear, gives a prefix of
    what the call on all of them gives. *)
Lemma convertToTimeSeries_take_prefix o cs (n : nat) :
  fst (convertToTimeSeries false o (take n cs))
    `prefix_of` fst (convertToTimeSeries false o cs)
  /\ logger (snd (convertToTimeSeries false o (take n cs)))
     `prefix_of` logger (snd (convertToTimeSeries false o cs)).
Proof.
  unfold convertToTimeSeries. simpl.
  rewrite <- (take_drop n cs) at 2 4. rewrite containersLoop_false_app.
  apply containersLoop_grows.
Qed.

(** X1. The cap only cuts the end off: whatever the toggle, the series and
    the log entries of a call are a prefix of those of the call with the
    toggle clear. *)
Theorem cap_only_truncates flag o cs :
  fst (convertToTimeSeries flag o cs) `prefix_of` fst (convertToTimeSeries false o cs)
  /\ logger (snd (convertToTimeSeries flag o cs))
     `prefix_of` logger (snd (convertToTimeSeries false o cs)).
Proof.
  destruct (convertToTimeSeries_prefix flag o cs) as (n & _ & Heq & _).
  rewrite Heq. apply convertToTimeSeries_take_prefix.
Qed.

Lemma convertToTimeSeries_idle_cap o cs :
  len (fst (convertToTimeSeries false o cs)) <= 150000 ->
  convertToTimeSeries true o cs = convertToTimeSeries false o cs.
Proof.
  intros Hlen.
  destruct (convertToTimeSeries_prefix true o cs) as (n & Hn & Heq & _ & Hcut & _).
  destruct (decide (n < length cs)%nat) as [Hlt|Hge].
  - destruct (Hcut Hlt) as [_ Hbig].
    pose proof (proj1 (convertToTimeSeries_take_prefix o cs n)) as Hpre.
    apply prefix_len in Hpre. lia.
  - rewrite Heq. rewrite take_ge by lia. done.
Qed.

(** X2. When the call with the toggle clear gives at most 150000 series, the
    toggle makes no difference: the same series, the same receiver. *)
Theorem cap_is_idle_up_to_threshold o cs :
  len (fst (convertToTimeSeries false o cs)) <= 150000 ->
  convertToTimeSeries true o cs = convertToTimeSeries false o cs.
Proof. apply convertToTimeSeries_idle_cap. Qed.

Lemma len_app {A : Type} (l1 l2 : list A) : len (l1 ++ l2) = len l1 + len l2.
Proof. unfold len. rewrite length_app. lia. Qed.

Lemma len_cons {A : Type} (x : A) (l : list A) : len (x :: l) = 1 + len l.
Proof. unfold len. simpl. lia. Qed.

Lemma len_nonneg {A : Type} (l : list A) : 0 <= len l.
Proof. unfold len. lia. Qed.

Lemma sampleStep_len (k : Z) st s :
  transformAtMost k -> 0 <= k ->
  len (promTimeSeries (sampleStep st s)) <= len (promTimeSeries st) + k.
Proof.
  intros Hk Hk0.
  destruct (sampleStep_cases st s)
    as [[_ ->] | (labels & lerr & m & newts & terr & _ & _ & Ht & Hp & _)];
    [lia|].
  rewrite Hp, len_app. destruct terr as [e|].
  - unfold len. simpl. lia.
  - specialize (Hk _ _ _ _ _ _ Ht). lia.
Qed.

Lemma samplesLoop_len (k : Z) l : forall st,
  transformAtMost k -> 0 <= k ->
  len (promTimeSeries (samplesLoop st l)) <= len (promTimeSeries st) + k * len l.
Proof.
  induction l as [|s l IH]; intros st Hk Hk0.
  - simpl. unfold len at 3. simpl. lia.
  - rewrite samplesLoop_cons, len_cons.
    specialize (IH (sampleStep st s) Hk Hk0).
    pose proof (sampleStep_len k st s Hk Hk0). lia.
Qed.

Lemma containersLoop_capped_len (k m : Z) cs : forall st,
  transformAtMost k -> 0 <= k -> 0 <= m ->
  Forall (fun c => len (metrics.GetSamples c) <= m) cs ->
  len (promTimeSeries st) <= 150000 ->
  len (promTimeSeries (containersLoop true cs st)) <= 150000 + k * m.
Proof.
  induction cs as [|c cs IH]; intros st Hk Hk0 Hm0 Hall Hst.
  - simpl. nia.
  - apply Forall_cons in Hall as [Hc Hall]. cbn [containersLoop].
    pose proof (samplesLoop_len k (metrics.GetSamples c) st Hk Hk0) as Hgrow.
    destruct (true && _) eqn:Hbrk.
    + nia.
    + simpl in Hbrk. apply Z.ltb_ge in Hbrk. by apply IH.
Qed.

(** X3. With the toggle set the batch is bounded: when [transform] returns
    at most [k] series for a sample and no container holds more than [m]
    samples, a call gives at most [150000 + k * m] series. *)
Theorem capped_batch_is_bounded (k m : Z) o cs :
  transformAtMost k -> 0 <= k -> 0 <= m ->
  Forall (fun c => len (metrics.GetSamples c) <= m) cs ->
  len (fst (convertToTimeSeries true o cs)) <= 150000 + k * m.
Proof.
  intros Hk Hk0 Hm0 Hall.
  apply (containersLoop_capped_len k m cs (mkConv [] ∅ o)); try done.
Qed.

Lemma convertSample_len (k : Z) (acc : list prompb.TimeSeries * Output) s :
  transformAtMost k -> 0 <= k ->
  len (fst (convertSample acc s)) <= len (fst acc) + k.
Proof.
  intros Hk Hk0. destruct acc as [pts o]. unfold convertSample.
  destruct (tagsToLabels _ _) as [labels lerr].
  destruct (transform _ _ _ _) as [m [newts [e|]]] eqn:Ht; simpl.
  - lia.
  - rewrite len_app. specialize (Hk _ _ _ _ _ _ Ht). lia.
Qed.

Lemma foldl_convertSample_len (k : Z) l :
  forall acc : list prompb.TimeSeries * Output,
  transformAtMost k -> 0 <= k ->
  len (fst (foldl convertSample acc l)) <= len (fst acc) + k * len l.
Proof.
  induction l as [|s l IH]; intros acc Hk Hk0.
  - simpl. unfold len at 3. simpl. lia.
  - simpl. rewrite len_cons.
    specialize (IH (convertSample acc s) Hk Hk0).
    pose proof (convertSample_len k acc s Hk Hk0). lia.
Qed.

Lemma firstPerName_names_set l : forall earlier,
  list_to_set (nameOf <$> firstPerName earlier l)
    =@{gset string} list_to_set (nameOf <$> l) ∖ list_to_set (nameOf <$> earlier).
Proof.
  induction l as [|s l IH]; intros earlier.
  - simpl. symmetry. apply empty_difference_L.
  - cbn [firstPerName]. specialize (IH (earlier ++ [s])).
    rewrite fmap_app, list_to_set_app_L in IH. simpl in IH.
    case_bool_decide as Hin.
    + rewrite IH. rewrite fmap_cons, list_to_set_cons. clear IH.
      apply (elem_of_list_to_set (C := gset string)) in Hin.
      remember (list_to_set (nameOf <$> l) : gset string) as L eqn:HL.
      remember (list_to_set (nameOf <$> earlier) : gset string) as E eqn:HE.
      remember (nameOf s) as x eqn:Hx. clear HL HE Hx.
      apply set_eq. intros y. set_unfold.
      destruct (decide (y = x)) as [->|Hne]; intuition congruence.
    + rewrite !fmap_cons, !list_to_set_cons, IH. clear IH.
      assert (nameOf s ∉ (list_to_set (nameOf <$> earlier) : gset string)) as Hnot.
      { by rewrite elem_of_list_to_set. }
      clear Hin.
      remember (list_to_set (nameOf <$> l) : gset string) as L eqn:HL.
      remember (list_to_set (nameOf <$> earlier) : gset string) as E eqn:HE.
      remember (nameOf s) as x eqn:Hx. clear HL HE Hx.
      apply set_eq. intros y. set_unfold.
      destruct (decide (y = x)) as [->|Hne]; intuition congruence.
Qed.

(** The first samples per name are as many as there are names. *)
Lemma firstPerName_count l :
  length (firstPerName [] l) = size (distinctNames l).
Proof.
  unfold distinctNames.
  rewrite <- (length_fmap nameOf (firstPerName [] l)).
  rewrite <- (size_list_to_set (C := gset string)) by apply firstPerName_names.
  rewrite firstPerName_names_set. simpl. by rewrite difference_empty_L.
Qed.

(** X4. When [transform] returns at most [k] series for a sample, a call
    gives at most [k] series for each metric name that occurs in the
    containers; with [k = 1], one series per metric name. *)
Theorem batch_bounded_by_metric_names (k : Z) flag o cs :
  transformAtMost k -> 0 <= k ->
  len (fst (convertToTimeSeries flag o cs))
    <= k * Z.of_nat (size (distinctNames (samplesOf cs))).
Proof.
  intros Hk Hk0.
  destruct (convertToTimeSeries_prefix flag o cs) as (n & _ & Heq & _).
  pose proof (proj1 (convertToTimeSeries_take_prefix o cs n)) as Hpre.
  apply prefix_len in Hpre. rewrite <- Heq in Hpre.
  rewrite convertToTimeSeries_false_firstPerName in Hpre.
  pose proof (foldl_convertSample_len k (firstPerName [] (samplesOf cs)) ([], o) Hk Hk0)
    as Hfold.
  unfold len at 3 in Hfold. rewrite firstPerName_count in Hfold.
  simpl in Hfold. unfold len at 2 in Hfold. simpl in Hfold. lia.
Qed.

Lemma samplesLoop_all_seen l : forall st,
  Forall (fun s => isSeen (seen st) (nameOf s) = true) l ->
  samplesLoop st l = st.
Proof.
  induction l as [|s l IH]; intros st Hall; [done|].
  apply Forall_cons in Hall as [Hs Hall].
  rewrite samplesLoop_cons, (sampleStep_seen _ _ Hs). by apply IH.
Qed.

Lemma containersLoop_all_seen flag cs : forall st,
  Forall (fun s => isSeen (seen st) (nameOf s) = true) (samplesOf cs) ->
  containersLoop flag cs st = st.
Proof.
  induction cs as [|c cs IH]; intros st Hall; [done|].
  rewrite samplesOf_cons in Hall. apply Forall_app in Hall as [Hc Hall].
  cbn [containersLoop]. rewrite (samplesLoop_all_seen _ _ Hc).
  destruct (flag && _); [done|]. by apply IH.
Qed.

(** X5. Containers that only hold samples of metric names already present
    in the containers before them change nothing: not the series, not the
    receiver.  In particular a buffer that holds its containers twice is
    converted like the buffer that holds them once. *)
Theorem later_samples_of_known_names_change_nothing flag o cs cs' :
  Forall (fun s => nameOf s ∈ nameOf <$> samplesOf cs) (samplesOf cs') ->
  convertToTimeSeries flag o (cs ++ cs') = convertToTimeSeries flag o cs.
Proof.
  intros Hknown. unfold convertToTimeSeries.
  destruct (containersLoop_app_cases cs cs' flag (mkConv [] ∅ o))
    as [-> | [-> Hfull]]; [done|].
  rewrite containersLoop_all_seen; [done|].
  rewrite Hfull, containersLoop_false_samplesOf.
  destruct (samplesLoop_firstPerName (samplesOf cs) (mkConv [] ∅ o) [])
    as [_ Hinv]; [apply SeenIs_empty|].
  eapply Forall_impl; [exact Hknown|].
  intros s Hs. by apply Hinv.
Qed.

(** X6. Containers added behind the others leave what the call gives for
    the others in place: the series and log entries for [cs1] are a prefix
    of those for [cs1 ++ cs2], whatever the toggle. *)
Theorem appended_containers_extend_the_batch flag o cs1 cs2 :
  fst (convertToTimeSeries flag o cs1)
    `prefix_of` fst (convertToTimeSeries flag o (cs1 ++ cs2))
  /\ logger (snd (convertToTimeSeries flag o cs1))
     `prefix_of` logger (snd (convertToTimeSeries flag o (cs1 ++ cs2))).
Proof.
  unfold convertToTimeSeries.
  destruct (containersLoop_app_cases cs1 cs2 flag (mkConv [] ∅ o))
    as [-> | [-> _]]; [done|].
  apply containersLoop_grows.
Qed.

(** X7. With the toggle clear the grouping of the samples into containers
    is of no consequence: the call gives what it gives for one container
    with all the samples. *)
Theorem uncapped_conversion_ignores_container_bounds o cs :
  convertToTimeSeries false o cs
    = convertToTimeSeries false o [metrics.mkContainer (samplesOf cs)].
Proof.
  assert (samplesOf [metrics.mkContainer (samplesOf cs)] = samplesOf cs) as Hone.
  { unfold samplesOf at 1. simpl. apply app_nil_r. }
  unfold convertToTimeSeries.
  by rewrite !containersLoop_false_samplesOf, Hone.
Qed.

(** * Where the series and the log entries come from *)

(** [convertSample] with what the two helpers returned. *)
Lemma convertSample_cases (pts : list prompb.TimeSeries) o s :
  exists (labels : list prompb.Label) (lerr : option error)
    (m : metricsStorage) (newts : list prompb.TimeSeries) (terr : option error)
    (o' : Output),
    tagsToLabels (metrics.Tags s) (config o) = (labels, lerr)
    /\ transform (metrics_ o) (mapping o) s labels = (m, (newts, terr))
    /\ convertSample (pts, o) s
       = (pts ++ match terr with Some _ => [] | None => newts end, o')
    /\ logger o'
       = logger o
         ++ match lerr with Some e => [errorEntry e] | None => [] end
         ++ match terr with Some e => [errorEntry e] | None => [] end
    /\ config o' = config o /\ mapping o' = mapping o.
Proof.
  unfold convertSample.
  destruct (tagsToLabels _ _) as [labels lerr] eqn:Hl.
  assert (metrics_ (match lerr with
                    | Some e => logError o e
                    | None => o
                    end) = metrics_ o) as Hm by (by destruct lerr).
  assert (mapping (match lerr with
                   | Some e => logError o e
                   | None => o
                   end) = mapping o) as Hmp by (by destruct lerr).
  rewrite Hm, Hmp.
  destruct (transform _ _ _ _) as [m [newts terr]] eqn:Ht.
  exists labels, lerr, m, newts, terr.
  destruct lerr, terr; simpl; rewrite ?app_nil_r;
    eexists; (split_and!; [done | done | reflexivity | | done | done]);
    simpl; by rewrite <- ?app_assoc, ?app_nil_r.
Qed.

Lemma transformedFrom_mono o (l1 l2 : list metrics.Sample) ts :
  l1 ⊆ l2 -> transformedFrom o l1 ts -> transformedFrom o l2 ts.
Proof.
  intros Hsub (s & m & m' & newts & Hs & Ht & Hts).
  exists s, m, m', newts. split_and!; [by apply Hsub | done | done].
Qed.

Lemma foldl_convertSample_from o0 (S : list metrics.Sample) l :
  forall (pts : list prompb.TimeSeries) o,
  config o = config o0 -> mapping o = mapping o0 ->
  l ⊆ S ->
  Forall (transformedFrom o0 S) pts ->
  Forall (transformedFrom o0 S) (fst (foldl convertSample (pts, o) l)).
Proof.
  induction l as [|s l IH]; intros pts o Hc Hm Hsub Hpts; [done|].
  cbn [foldl].
  destruct (convertSample_cases pts o s)
    as (labels & lerr & m & newts & terr & o' & Hl & Ht & -> & _ & Hc' & Hm').
  apply IH; [congruence | congruence | set_solver |].
  apply Forall_app. split; [done|].
  destruct terr as [e|]; [constructor|].
  apply Forall_forall. intros ts Hts.
  exists s, (metrics_ o), m, newts. split_and!; [set_solver | | done].
  by rewrite <- Hc, <- Hm, Hl.
Qed.

Lemma samplesOf_take_subseteq cs (n : nat) : samplesOf (take n cs) ⊆ samplesOf cs.
Proof.
  rewrite <- (take_drop n cs) at 2. rewrite samplesOf_app.
  intros s Hs. apply elem_of_app. by left.
Qed.

(** X9. Every series of the batch is one of those [transform] returned,
    without an error, for a sample of the containers and the labels
    [tagsToLabels] built from the tags of that very sample, under the
    configuration and the mapping of the receiver: the conversion makes up
    no series and alters none. *)
Theorem batch_series_come_from_transform flag o cs :
  Forall (transformedFrom o (samplesOf cs)) (fst (convertToTimeSeries flag o cs)).
Proof.
  destruct (convertToTimeSeries_prefix flag o cs) as (n & _ & -> & _).
  rewrite convertToTimeSeries_false_firstPerName.
  eapply Forall_impl.
  - apply (foldl_convertSample_from o (samplesOf (take n cs))); try done.
    intros s Hs. eapply sublist_subseteq; [apply firstPerName_sublist | done].
  - intros ts. apply transformedFrom_mono, samplesOf_take_subseteq.
Qed.

(** An error entry, as [logger.Error(err)] writes it. *)
Lemma foldl_convertSample_log l : forall (pts : list prompb.TimeSeries) o,
  exists es,
    logger (snd (foldl convertSample (pts, o) l)) = logger o ++ es
    /\ Forall (fun e => exists err, e = errorEntry err) es
    /\ (length es <= 2 * length l)%nat.
Proof.
  induction l as [|s l IH]; intros pts o.
  - exists []. simpl. rewrite app_nil_r. split_and!; [done | constructor | lia].
  - cbn [foldl].
    destruct (convertSample_cases pts o s)
      as (labels & lerr & m & newts & terr & o' & _ & _ & -> & Hlog & _).
    destruct (IH (pts ++ match terr with Some _ => [] | None => newts end) o')
      as (es & Hes & Herr & Hlen).
    exists ((match lerr with Some e => [errorEntry e] | None => [] end
             ++ match terr with Some e => [errorEntry e] | None => [] end) ++ es).
    split_and!.
    + rewrite Hes, Hlog. by rewrite <- !app_assoc.
    + apply Forall_app. split; [|done].
      destruct lerr, terr; repeat constructor; by eexists.
    + rewrite length_app. destruct lerr, terr; simpl; lia.
Qed.

Lemma distinctNames_take_size cs (n : nat) :
  (size (distinctNames (samplesOf (take n cs)))
   <= size (distinctNames (samplesOf cs)))%nat.
Proof.
  apply subseteq_size. unfold distinctNames.
  rewrite <- (take_drop n cs) at 2. rewrite samplesOf_app, fmap_app.
  rewrite list_to_set_app_L. apply union_subseteq_l.
Qed.

(** X8. Of its receiver a call of [convertToTimeSeries] changes the metrics
    storage and the logger only.  What it adds to the logger are error
    entries, at most two for each metric name that occurs in the
    containers. *)
Theorem conversion_changes_storage_and_error_log flag o cs :
  config (snd (convertToTimeSeries flag o cs)) = config o
  /\ client (snd (convertToTimeSeries flag o cs)) = client o
  /\ mapping (snd (convertToTimeSeries flag o cs)) = mapping o
  /\ SampleBuffer (snd (convertToTimeSeries flag o cs)) = SampleBuffer o
  /\ exists es,
      logger (snd (convertToTimeSeries flag o cs)) = logger o ++ es
      /\ Forall (fun e => exists err, e = errorEntry err) es
      /\ (length es <= 2 * size (distinctNames (samplesOf cs)))%nat.
Proof.
  destruct (convertToTimeSeries_frame flag o cs) as (Hc & Hcl & Hm & Hb & _).
  split_and!; try done.
  destruct (convertToTimeSeries_prefix flag o cs) as (n & _ & -> & _).
  rewrite convertToTimeSeries_false_firstPerName.
  destruct (foldl_convertSample_log (firstPerName [] (samplesOf (take n cs))) [] o)
    as (es & Hes & Herr & Hlen).
  exists es. split_and!; [done | done |].
  rewrite firstPerName_count in Hlen.
  pose proof (distinctNames_take_size cs n). lia.
Qed.

(** * Further properties of [flush] *)

(** What holds of the receiver however [flush] ends. *)
Lemma flush_outcome_frame (d : Duration) flag o :
  SampleBuffer (snd (outcomeState (flush d flag o))) = []
  /\ config (snd (outcomeState (flush d flag o))) = config o
  /\ mapping (snd (outcomeState (flush d flag o))) = mapping o
  /\ metrics_ (snd (outcomeState (flush d flag o)))
     = metrics_ (snd (convertToTimeSeries flag (setSampleBuffer o [])
                        (SampleBuffer o))).
Proof.
  rewrite flush_unfold.
  destruct (flush_conversion_frame flag o) as (Hc & _ & Hm & Hb).
  destruct (convertToTimeSeries _ _ _) as [pts o1]. simpl in Hc, Hm, Hb.
  unfold sendTimeSeries. simpl.
  destruct (Marshal _) as [buf [err|]]; [done|].
  destruct (snappyEncode buf) as [encoded|].
  - destruct (Store _ _) as [c serr]. unfold flushDeferred. simpl.
    destruct serr, (_ <? _); done.
  - unfold flushDeferred. simpl. destruct (_ <? _); done.
Qed.

(** X10. However a flush ends (return, panic or exit) the buffer of the
    instance has been drained and stays empty, the configuration and the
    mapping are as before, and the metrics storage is the one the
    conversion left: marshalling, sending and the deferred closure do not
    touch it. *)
Theorem flush_drains_the_buffer_however_it_ends (d : Duration) flag o :
  SampleBuffer (snd (outcomeState (flush d flag o))) = []
  /\ config (snd (outcomeState (flush d flag o))) = config o
  /\ mapping (snd (outcomeState (flush d flag o))) = mapping o
  /\ metrics_ (snd (outcomeState (flush d flag o)))
     = metrics_ (snd (convertToTimeSeries flag (setSampleBuffer o [])
                        (SampleBuffer o))).
Proof. apply flush_outcome_frame. Qed.

Lemma stateAfter_outcomeState {A : Type} (r : Outcome A) (a : A) :
  stateAfter r = Some a -> outcomeState r = a.
Proof. destruct r; simpl; congruence. Qed.

Lemma drained_output_eta o :
  SampleBuffer o = [] -> setSampleBuffer o [] = o.
Proof. destruct o. simpl. by intros ->. Qed.

(** X11. Samples are converted by one flush and no other: after a flush the
    next flush converts nothing if nothing was added, and if the containers
    [cs] were added it converts exactly [cs], starting from the receiver the
    first flush left. *)
Theorem buffered_samples_are_converted_once
    (d : Duration) flag o (flag1 : bool) (o1 : Output) :
  stateAfter (flush d flag o) = Some (flag1, o1) ->
  forall flag' cs,
    flushBatch flag' o1 = []
    /\ flushBatch flag' (AddMetricSamples o1 cs)
       = fst (convertToTimeSeries flag' o1 cs).
Proof.
  intros Hret flag' cs.
  destruct (flush_outcome_frame d flag o) as (Hb & _).
  rewrite (stateAfter_outcomeState _ _ Hret) in Hb. simpl in Hb.
  rewrite !flushBatch_unfold. split.
  - by rewrite Hb.
  - unfold AddMetricSamples. simpl. rewrite Hb. simpl.
    replace (setSampleBuffer (setSampleBuffer o1 cs) []) with o1; [done|].
    destruct o1. simpl in Hb. by subst.
Qed.

(** X12. When [snappy.Encode] panics, the deferred closure still runs: the
    toggle is set to whether the flush overran, the timing entry is the
    last one logged, and the client has not been called. *)
Theorem snappy_panic_runs_the_deferred_closure (d : Duration) flag o (buf : bytes) :
  Marshal (prompb.mkWriteRequest (flushBatch flag o)) = (buf, None) ->
  snappyEncode buf = None ->
  exists o',
    flush d flag o = Panicked ((FlushPeriod (config o) <? d), o')
    /\ client o' = client o
    /\ logger o'
       = logger (snd (convertToTimeSeries flag (setSampleBuffer o []) (SampleBuffer o)))
         ++ [mkEntry DebugLevel (Some (len (flushBatch flag o))) None
               (Text "Converted samples to time series in preparation for sending.");
             if FlushPeriod (config o) <? d
             then mkEntry WarnLevel (Some (len (flushBatch flag o))) None
                    (RemoteWriteTookWhile d (FlushPeriod (config o)))
             else mkEntry DebugLevel (Some (len (flushBatch flag o))) None
                    (RemoteWriteTook d)].
Proof.
  rewrite flush_unfold, flushBatch_unfold.
  destruct (flush_conversion_frame flag o) as (Hc & Hcl & _ & _).
  destruct (convertToTimeSeries _ _ _) as [pts o1]. simpl in Hc, Hcl. simpl.
  intros Hm Hz. rewrite Hm, Hz. unfold flushDeferred. simpl. rewrite Hc.
  destruct (_ <? _); eexists; (split; [reflexivity|]); simpl;
    rewrite <- ?app_assoc; done.
Qed.

(** X13. When [Store] succeeds, [flush] returns with the toggle set to
    whether it overran; the client was called once, with the compressed
    request, and the flush logged two entries of its own, neither at the
    error level. *)
Theorem store_success_logs_no_error
    (d : Duration) flag o (buf encoded : bytes) (c : WriteClient) :
  Marshal (prompb.mkWriteRequest (flushBatch flag o)) = (buf, None) ->
  snappyEncode buf = Some encoded ->
  Store (client o) encoded = (c, None) ->
  exists o',
    flush d flag o = Returned ((FlushPeriod (config o) <? d), o')
    /\ client o' = c
    /\ logger o'
       = logger (snd (convertToTimeSeries flag (setSampleBuffer o []) (SampleBuffer o)))
         ++ [mkEntry DebugLevel (Some (len (flushBatch flag o))) None
               (Text "Converted samples to time series in preparation for sending.");
             if FlushPeriod (config o) <? d
             then mkEntry WarnLevel (Some (len (flushBatch flag o))) None
                    (RemoteWriteTookWhile d (FlushPeriod (config o)))
             else mkEntry DebugLevel (Some (len (flushBatch flag o))) None
                    (RemoteWriteTook d)].
Proof.
  rewrite flush_unfold, flushBatch_unfold.
  destruct (flush_conversion_frame flag o) as (Hc & Hcl & _ & _).
  destruct (convertToTimeSeries _ _ _) as [pts o1]. simpl in Hc, Hcl. simpl.
  intros Hm Hz Hst. rewrite Hm, Hz, Hcl, Hst. unfold flushDeferred. simpl.
  rewrite Hc.
  destruct (_ <? _); eexists; (split; [reflexivity|]); simpl;
    rewrite <- ?app_assoc; done.
Qed.

(** X16. The elapsed time decides the toggle and the timing entry, nothing
    else: two flushes from the same state that differ in the time they took
    end the same way, call the client alike and leave the same metrics
    storage and the same empty buffer. *)
Theorem elapsed_time_only_decides_the_toggle (d d' : Duration) flag o :
  client (snd (outcomeState (flush d flag o)))
    = client (snd (outcomeState (flush d' flag o)))
  /\ metrics_ (snd (outcomeState (flush d flag o)))
     = metrics_ (snd (outcomeState (flush d' flag o)))
  /\ SampleBuffer (snd (outcomeState (flush d flag o)))
     = SampleBuffer (snd (outcomeState (flush d' flag o)))
  /\ mapOutcome (fun _ : bool * Output => tt) (flush d flag o)
     = mapOutcome (fun _ : bool * Output => tt) (flush d' flag o).
Proof.
  rewrite !flush_unfold.
  destruct (convertToTimeSeries _ _ _) as [pts o1].
  unfold sendTimeSeries. simpl.
  destruct (Marshal _) as [buf [err|]]; [done|].
  destruct (snappyEncode buf) as [encoded|].
  - destruct (Store _ _) as [c serr]. unfold flushDeferred. simpl.
    destruct serr, (_ <? d), (_ <? d'); done.
  - unfold flushDeferred. simpl. destruct (_ <? d), (_ <? d'); done.
Qed.

(** X17. While the buffer converts to at most 150000 series the toggle has
    no bearing on a flush: set or clear, the flush ends the same way and
    leaves the same instance and the same new toggle. *)
Theorem toggle_is_idle_for_small_buffers (d : Duration) o :
  len (flushBatch false o) <= 150000 ->
  flushBatch true o = flushBatch false o
  /\ stateAfter (flush d true o) = stateAfter (flush d false o)
  /\ mapOutcome snd (flush d true o) = mapOutcome snd (flush d false o).
Proof.
  rewrite !flushBatch_unfold, !flush_unfold. intros Hlen.
  rewrite (convertToTimeSeries_idle_cap _ _ Hlen).
  destruct (convertToTimeSeries _ _ _) as [pts o1].
  unfold sendTimeSeries. simpl.
  destruct (Marshal _) as [buf [err|]]; [done|].
  destruct (snappyEncode buf) as [encoded|]; [|done].
  by destruct (Store _ _) as [c serr].
Qed.

(** * The containers a call processes *)

Lemma convertToTimeSeries_processedPrefix flag o cs :
  exists n : nat,
    processedPrefix flag o cs n
    /\ convertToTimeSeries flag o cs = conversionOf o (take n cs).
Proof.
  destruct (convertToTimeSeries_prefix flag o cs)
    as (n & Hn & Heq & Hall & Hcut & Hmin).
  exists n. unfold processedPrefix, conversionOf.
  split_and!; [done | done | | | ].
  - intros Hlt. destruct (Hcut Hlt) as [Hf Hbig]. split; [done|].
    by rewrite <- convertToTimeSeries_false_firstPerName.
  - intros Hf k Hk. rewrite <- convertToTimeSeries_false_firstPerName.
    by apply Hmin.
  - by rewrite Heq, convertToTimeSeries_false_firstPerName.
Qed.

(** One flush, in terms of the containers it processes. *)
Lemma flush_processedPrefix (d : Duration) flag o :
  exists n : nat,
    processedPrefix flag (setSampleBuffer o []) (SampleBuffer o) n
    /\ flushBatch flag o
       = fst (conversionOf (setSampleBuffer o []) (take n (SampleBuffer o)))
    /\ flush d flag o
       = sendTimeSeries d flag
           (conversionOf (setSampleBuffer o []) (take n (SampleBuffer o)))
    /\ metrics_ (snd (outcomeState (flush d flag o)))
       = metrics_ (snd (conversionOf (setSampleBuffer o []) (take n (SampleBuffer o))))
    /\ (forall buf encoded : bytes,
          Marshal (prompb.mkWriteRequest
                     (fst (conversionOf (setSampleBuffer o [])
                             (take n (SampleBuffer o))))) = (buf, None) ->
          snappyEncode buf = Some encoded ->
          exists o',
            flush d flag o = Returned ((FlushPeriod (config o) <? d), o')
            /\ client o' = fst (Store (client o) encoded)).
Proof.
  destruct (convertToTimeSeries_processedPrefix flag (setSampleBuffer o [])
              (SampleBuffer o)) as (n & Hn & Heq).
  exists n. split; [done|].
  destruct (flush_outcome_frame d flag o) as (_ & _ & _ & Hms).
  destruct (flush_conversion_frame flag o) as (Hc & Hcl & _ & _).
  rewrite Hms. rewrite flushBatch_unfold, flush_unfold.
  rewrite Heq in *. split_and!; try done.
  destruct (conversionOf _ _) as [pts o1]. simpl in Hc, Hcl.
  intros buf encoded Hm Hz. simpl in Hm. unfold sendTimeSeries. simpl.
  rewrite Hm, Hz, Hcl.
  destruct (Store _ _) as [c serr]. unfold flushDeferred.
  destruct serr; simpl; rewrite Hc;
    destruct (_ <? _); eexists; (split; [reflexivity|]); done.
Qed.

(** C3. A call of [convertToTimeSeries] converts the first sample of each
    metric name of the containers it processes, and these containers are a
    prefix of its input: all of it when the toggle is clear; when the toggle
    is set, the prefix up to the first container after which more than
    150000 series have accumulated, the containers behind it being left
    out, and never a shorter one.  A flush converts its buffer in this way
    with the value the toggle has when the flush begins, whatever time the
    flush itself takes, and stores the result; after a flush that went back
    to its caller that value is whether that flush overran its period, so it
    is the overrun of the previous flush that caps the next. *)
Theorem backpressure_cap_uses_previous_flag :
  (forall flag o cs,
      exists n : nat,
        processedPrefix flag o cs n
        /\ convertToTimeSeries flag o cs = conversionOf o (take n cs))
  /\ (forall (d : Duration) flag o,
        exists n : nat,
          processedPrefix flag (setSampleBuffer o []) (SampleBuffer o) n
          /\ flushBatch flag o
             = fst (conversionOf (setSampleBuffer o []) (take n (SampleBuffer o)))
          /\ flush d flag o
             = sendTimeSeries d flag
                 (conversionOf (setSampleBuffer o []) (take n (SampleBuffer o))))
  /\ (forall (d1 : Duration) flag o flag1 o1,
        stateAfter (flush d1 flag o) = Some (flag1, o1) ->
        flag1 = (FlushPeriod (config o) <? d1)
        /\ forall (d2 : Duration) o2,
            exists n : nat,
              processedPrefix (FlushPeriod (config o) <? d1)
                (setSampleBuffer o2 []) (SampleBuffer o2) n
              /\ flushBatch flag1 o2
                 = fst (conversionOf (setSampleBuffer o2 [])
                          (take n (SampleBuffer o2)))
              /\ metrics_ (snd (outcomeState (flush d2 flag1 o2)))
                 = metrics_ (snd (conversionOf (setSampleBuffer o2 [])
                                    (take n (SampleBuffer o2))))
              /\ (forall buf encoded : bytes,
                    Marshal (prompb.mkWriteRequest
                               (fst (conversionOf (setSampleBuffer o2 [])
                                       (take n (SampleBuffer o2)))))
                      = (buf, None) ->
                    snappyEncode buf = Some encoded ->
                    exists o3,
                      flush d2 flag1 o2
                        = Returned ((FlushPeriod (config o2) <? d2), o3)
                      /\ client o3 = fst (Store (client o2) encoded))).
Proof.
  split_and!.
  - intros flag o cs. apply convertToTimeSeries_processedPrefix.
  - intros d flag o.
    destruct (flush_processedPrefix d flag o) as (n & Hn & Hb & Hf & _).
    by exists n.
  - intros d1 flag o flag1 o1 Hret.
    destruct (flush_ran_deferred _ _ _ _ Hret) as (o' & Hr & Hcfg).
    assert (flag1 = (FlushPeriod (config o) <? d1)) as Hflag.
    { rewrite <- Hcfg, <- (flushDeferred_flag d1 (len (flushBatch flag o)) o').
      by rewrite <- Hr. }
    split; [done|]. intros d2 o2. rewrite Hflag.
    destruct (flush_processedPrefix d2 (FlushPeriod (config o) <? d1) o2)
      as (n & Hn & Hb & _ & Hms & Hsend).
    by exists n.
Qed.

(** * One series, one point *)







End Properties.

(** * [New] *)

Section NewProperties.

Context `{Ext : Externals} `{Cons : !Constructors Ext}.

(** X15. [New] returns the error of the first of its three construction
    steps that fails, and then writes nothing to the logger; when all three
    succeed it writes its one info entry and returns the instance made of
    the consolidated configuration, the new client, a fresh metrics
    storage, the mapping the configuration names and an empty buffer.  A
    flush of that instance before any sample has arrived converts nothing.
    That the mapping is the one the configuration names holds of the new
    instance and is kept by every flush of any instance of which it holds,
    however the flush ends, and by the arrival of samples. *)
Theorem New_builds_only_when_every_step_succeeds (params : Params) :
  (forall cfg e,
      GetConsolidatedConfig (JSONConfig params) (Environment params)
        (ConfigArgument params) = (cfg, Some e) ->
      New params = (Logger params, inr e))
  /\ (forall cfg rc e,
        GetConsolidatedConfig (JSONConfig params) (Environment params)
          (ConfigArgument params) = (cfg, None) ->
        ConstructRemoteConfig cfg = (rc, Some e) ->
        New params = (Logger params, inr e))
  /\ (forall cfg rc cl e,
        GetConsolidatedConfig (JSONConfig params) (Environment params)
          (ConfigArgument params) = (cfg, None) ->
        ConstructRemoteConfig cfg = (rc, None) ->
        NewWriteClient "xk6-prwo" rc = (cl, Some e) ->
        New params = (Logger params, inr e))
  /\ (forall cfg rc cl,
        GetConsolidatedConfig (JSONConfig params) (Environment params)
          (ConfigArgument params) = (cfg, None) ->
        ConstructRemoteConfig cfg = (rc, None) ->
        NewWriteClient "xk6-prwo" rc = (cl, None) ->
        New params
          = (Logger params ++ [configuringEntry cfg],
             inl (mkOutput cfg cl newMetricsStorage
                    (NewMapping (MappingString cfg)) []
                    (Logger params ++ [configuringEntry cfg]))))
  /\ (forall lg o,
        New params = (lg, inl o) ->
        mappingFollowsConfig o /\ forall flag, flushBatch flag o = [])
  /\ (forall o,
        mappingFollowsConfig o ->
        (forall (d : Duration) flag,
            mappingFollowsConfig (snd (outcomeState (flush d flag o))))
        /\ forall cs, mappingFollowsConfig (AddMetricSamples o cs)).
Proof.
  split_and!.
  - intros cfg e H1. unfold New. by rewrite H1.
  - intros cfg rc e H1 H2. unfold New. by rewrite H1, H2.
  - intros cfg rc cl e H1 H2 H3. unfold New. by rewrite H1, H2, H3.
  - intros cfg rc cl H1 H2 H3. unfold New. by rewrite H1, H2, H3.
  - intros lg o. unfold New.
    destruct (GetConsolidatedConfig _ _ _) as [cfg [e1|]]; [done|].
    destruct (ConstructRemoteConfig cfg) as [rc [e2|]]; [done|].
    destruct (NewWriteClient _ rc) as [cl [e3|]]; [done|].
    intros [= <- <-]. done.
  - intros o Hm. split.
    + intros d flag. unfold mappingFollowsConfig.
      destruct (flush_outcome_frame d flag o) as (_ & Hc & Hmp & _).
      by rewrite Hc, Hmp.
    + intros cs. done.
Qed.

End NewProperties.

(** * The code at work *)

Section Examples.

Import Demo.
#[local] Existing Instance ext.
#[local] Existing Instance demoConstructors.

Lemma demo_tagsToLabelsEmptyOnError : tagsToLabelsEmptyOnError.
Proof.
  intros tags cfg labels e Ht. simpl in Ht. unfold demoTagsToLabels in Ht.
  case_bool_decide; by simplify_eq.
Qed.

(** Three samples of [http_reqs] with different tags and one timestamp,
    spread over two containers, give one series: that of the first. *)
Example three_samples_one_series :
  flushBatch false rawOutput
    = [onePoint [prompb.mkLabel "__name__" "http_reqs"; prompb.mkLabel "method" "GET"] req1;
       onePoint [prompb.mkLabel "__name__" "vus"] vus]
  /\ metrics_ (snd (convertToTimeSeries false idleOutput (SampleBuffer rawOutput)))
     = [(req1, [prompb.mkLabel "method" "GET"]); (vus, [])].
Proof. split; vm_compute; reflexivity. Qed.

Example firstPerName_example :
  firstPerName [] [req1; req2; vus; req3; cpu2; vus] = [req1; vus; cpu2].
Proof. vm_compute. reflexivity. Qed.

(** The cap: with the toggle set the second container is not converted. *)
Example cap_with_toggle_set :
  len (flushBatch true fanOutput) = 150001
  /\ len (flushBatch false fanOutput) = 150002.
Proof. split; vm_compute; reflexivity. Qed.

(** A sample refused by [transform] hides the later, good sample of its
    metric: alone the later sample gives a series, behind the refused one
    the metric gives none. *)
Example refused_sample_hides_metric :
  fst (convertToTimeSeries false idleOutput [container [evil; cpu2]]) = []
  /\ fst (convertToTimeSeries false idleOutput [container [cpu2]])
     = [onePoint [prompb.mkLabel "__name__" "cpu"; prompb.mkLabel "host" "a"] cpu2].
Proof. split; vm_compute; reflexivity. Qed.

(** Two instances: the second converts 150001 series when the first one
    overran its period, and 150002 when it did not. *)
Example overrun_of_one_instance_caps_the_other :
  nextBatchLen 0 1 7 twoOutputs = Some 150001
  /\ nextBatchLen 0 1 3 twoOutputs = Some 150002.
Proof. split; vm_compute; reflexivity. Qed.

(** ** The theorems at concrete inputs *)

Lemma first_sample_per_name_witness :
  sampleStep (samplesLoop (start idleOutput) [req1; vus]) req2
    = samplesLoop (start idleOutput) [req1; vus].
Proof.
  refine (proj1 (convertToTimeSeries_first_sample_per_name false idleOutput [])
            _ [req1; vus] req2 _ _).
  - exact (proj2 (samplesLoop_firstPerName [req1; vus] (start idleOutput) []
                    SeenIs_empty)).
  - apply (bool_decide_unpack _). vm_compute. exact I.
Defined.

Lemma flush_sets_toggle_witness :
  exists o',
    stateAfter (flush 7 false rawOutput) = Some (true, o')
    /\ last (logger o')
       = Some (mkEntry WarnLevel (Some (len (flushBatch false rawOutput))) None
                 (RemoteWriteTookWhile 7 (FlushPeriod (config rawOutput)))).
Proof.
  eexists. split; [reflexivity|].
  refine (proj1 (proj2 (proj2 (flush_sets_toggle_to_overrun 7 false rawOutput)
                          true _ eq_refl)) _).
  reflexivity.
Defined.


Lemma transform_error_witness :
  promTimeSeries (sampleStep (start idleOutput) dur1)
    = promTimeSeries (start idleOutput)
  /\ logger (recv (sampleStep (start idleOutput) dur1))
     = logger (recv (start idleOutput)) ++ []
       ++ [errorEntry "trend metric is incompatible with the raw mapping"].
Proof.
  refine (let H := transform_error_drops_only_that_sample
                     (start idleOutput) dur1 [] None _ []
                     "trend metric is incompatible with the raw mapping"
                     eq_refl eq_refl eq_refl in
          conj (proj1 H) (proj1 (proj2 H))).
Defined.

Lemma label_error_witness :
  promTimeSeries (sampleStep (start idleOutput) badTags)
    = promTimeSeries (start idleOutput)
      ++ [onePoint [prompb.mkLabel "__name__" "checks"] badTags]
  /\ logger (recv (sampleStep (start idleOutput) badTags))
     = logger (recv (start idleOutput))
       ++ [errorEntry "tag value cannot be represented"] ++ [].
Proof.
  refine (let H := label_error_converts_with_empty_labels
                     (start idleOutput) badTags []
                     "tag value cannot be represented" _
                     [onePoint [prompb.mkLabel "__name__" "checks"] badTags] None
                     demo_tagsToLabelsEmptyOnError eq_refl eq_refl eq_refl in
          conj (proj1 (proj2 (proj2 H))) (proj1 (proj2 (proj2 (proj2 H))))).
Defined.

Lemma store_error_witness :
  (exists flag' o',
      flush 3 true downOutput = Returned (flag', o')
      /\ client o' = mkClient false [[Byte.xff; Byte.x01; Byte.x01]]
      /\ SampleBuffer o' = [])
  /\ (exists o', flush 3 true bareOutput = Exited (true, o')
                 /\ client o' = client bareOutput).
Proof.
  split.
  - destruct (proj1 (store_error_is_logged_marshal_error_is_fatal 3 true downOutput)
                [Byte.x01; Byte.x01] [Byte.xff; Byte.x01; Byte.x01]
                (mkClient false [[Byte.xff; Byte.x01; Byte.x01]])
                "connection refused" eq_refl eq_refl eq_refl)
      as (flag' & o' & Hret & Hc & Hb & _).
    exists flag', o'. split_and!; [exact Hret | exact Hc | exact Hb].
  - destruct (proj2 (store_error_is_logged_marshal_error_is_fatal 3 true bareOutput)
                [] "series without labels" eq_refl)
      as (o' & Hret & Hc & _).
    exists o'. split; [exact Hret | exact Hc].
Defined.

Lemma failed_first_sample_witness :
  isSeen (seen (sampleStep (start idleOutput) evil)) (nameOf evil) = true
  /\ promTimeSeries (sampleStep (start idleOutput) evil)
     = promTimeSeries (start idleOutput).
Proof.
  refine (let H := failed_first_sample_hides_its_metric (start idleOutput) evil in
          conj (proj1 H)
            (proj2 (proj2 (proj2 H))
               [prompb.mkLabel "__name__" "evil"] None _ []
               "a tag collides with the name label" eq_refl eq_refl eq_refl)).
Defined.

Lemma empty_batch_witness :
  flushBatch false idleOutput = []
  /\ exists flag' o',
      flush 3 false idleOutput = Returned (flag', o')
      /\ client o' = fst (Store (client idleOutput) [Byte.xff]).
Proof.
  refine (let H := proj2 (flush_sends_even_an_empty_batch 3 false idleOutput)
                     eq_refl in
          conj (proj1 H) (proj2 (proj2 H) [] [Byte.xff] eq_refl eq_refl)).
Defined.

(** ** The further properties at concrete inputs *)

Lemma strict_transformAtMost : @transformAtMost strict 1.
Proof.
  intros m mp s labels m' newts Ht. simpl in Ht. unfold demoTransform in Ht.
  destruct (metrics.Type_ (metrics.Metric_ s)); try destruct (existsb _ labels);
    simplify_eq; done.
Qed.

(** With the toggle set the grouping into containers does matter: the same
    two samples give 150001 series in two containers and 150002 in one. *)
Example capped_conversion_depends_on_container_bounds :
  len (fst (convertToTimeSeries true (output 5 FanoutMapping true [])
              (SampleBuffer fanOutput))) = 150001
  /\ len (fst (convertToTimeSeries true (output 5 FanoutMapping true [])
                 [metrics.mkContainer (samplesOf (SampleBuffer fanOutput))])) = 150002.
Proof. split; vm_compute; reflexivity. Qed.

Lemma cap_is_idle_witness :
  convertToTimeSeries true idleOutput (SampleBuffer rawOutput)
    = convertToTimeSeries false idleOutput (SampleBuffer rawOutput).
Proof.
  apply (cap_is_idle_up_to_threshold idleOutput (SampleBuffer rawOutput)).
  vm_compute. discriminate.
Defined.

Lemma capped_batch_bound_witness :
  len (fst (@convertToTimeSeries strict true strictOutput
              (@SampleBuffer strict strictOutput))) <= 150000 + 1 * 2.
Proof.
  apply (@capped_batch_is_bounded strict 1 2 strictOutput
           (@SampleBuffer strict strictOutput) strict_transformAtMost).
  - lia.
  - lia.
  - apply (bool_decide_unpack _). vm_compute. exact I.
Defined.

Lemma batch_bounded_by_names_witness :
  len (fst (@convertToTimeSeries strict false strictOutput
              (@SampleBuffer strict strictOutput)))
    <= 1 * Z.of_nat (size (distinctNames (samplesOf (@SampleBuffer strict strictOutput)))).
Proof.
  apply (@batch_bounded_by_metric_names strict 1 false strictOutput
           (@SampleBuffer strict strictOutput) strict_transformAtMost).
  lia.
Defined.

Lemma known_names_witness :
  convertToTimeSeries true idleOutput
    ([container [req1; vus]] ++ [container [req2; req3]; container [vus]])
    = convertToTimeSeries true idleOutput [container [req1; vus]].
Proof.
  apply (later_samples_of_known_names_change_nothing true idleOutput
           [container [req1; vus]] [container [req2; req3]; container [vus]]).
  apply (bool_decide_unpack _). vm_compute. exact I.
Defined.

Lemma converted_once_witness :
  exists o1,
    stateAfter (flush 7 false rawOutput) = Some (true, o1)
    /\ flushBatch true o1 = []
    /\ flushBatch true (AddMetricSamples o1 [container [req3]])
       = fst (convertToTimeSeries true o1 [container [req3]]).
Proof.
  eexists. split; [reflexivity|].
  exact (buffered_samples_are_converted_once 7 false rawOutput true _ eq_refl
           true [container [req3]]).
Defined.

Lemma snappy_panic_witness :
  exists o',
    @flush strict 7 false strictOutput
      = Panicked ((@FlushPeriod strict (@config strict strictOutput) <? 7), o')
    /\ @client strict o' = @client strict strictOutput.
Proof.
  destruct (@snappy_panic_runs_the_deferred_closure strict 7 false strictOutput
              [Byte.x01; Byte.x01] eq_refl eq_refl) as (o' & Hret & Hc & _).
  exists o'. split; [exact Hret | exact Hc].
Defined.

Lemma store_success_witness :
  exists o',
    flush 3 false rawOutput
      = Returned ((FlushPeriod (config rawOutput) <? 3), o')
    /\ client o' = mkClient true [[Byte.xff; Byte.x01; Byte.x01]].
Proof.
  destruct (store_success_logs_no_error 3 false rawOutput
              [Byte.x01; Byte.x01] [Byte.xff; Byte.x01; Byte.x01]
              (mkClient true [[Byte.xff; Byte.x01; Byte.x01]])
              eq_refl eq_refl eq_refl) as (o' & Hret & Hc & _).
  exists o'. split; [exact Hret | exact Hc].
Defined.

Lemma toggle_idle_witness :
  flushBatch true rawOutput = flushBatch false rawOutput
  /\ stateAfter (flush 7 true rawOutput) = stateAfter (flush 7 false rawOutput)
  /\ mapOutcome snd (flush 7 true rawOutput) = mapOutcome snd (flush 7 false rawOutput).
Proof.
  apply (toggle_is_idle_for_small_buffers 7 rawOutput).
  vm_compute. discriminate.
Defined.



Lemma backpressure_cap_witness :
  true = (FlushPeriod (config rawOutput) <? 7)
  /\ forall (d2 : Duration),
      exists n : nat,
        processedPrefix (FlushPeriod (config rawOutput) <? 7)
          (setSampleBuffer fanOutput []) (SampleBuffer fanOutput) n
        /\ flushBatch true fanOutput
           = fst (conversionOf (setSampleBuffer fanOutput [])
                    (take n (SampleBuffer fanOutput))).
Proof.
  destruct (proj2 (proj2 backpressure_cap_uses_previous_flag)
              7 false rawOutput true _ eq_refl) as [Hflag Hnext].
  split; [exact Hflag|].
  intros d2. destruct (Hnext d2 fanOutput) as (n & Hn & Hb & _).
  exists n. split; [exact Hn | exact Hb].
Defined.

(** The number of containers the capped call on the big buffer processes is
    one, and on the small buffer it is all of them. *)
Example processedPrefix_examples :
  processedPrefix true (setSampleBuffer fanOutput []) (SampleBuffer fanOutput) 1
  /\ processedPrefix true (setSampleBuffer rawOutput []) (SampleBuffer rawOutput) 2.
Proof.
  split; unfold processedPrefix; (split_and!; [simpl; lia | done | | ]).
  - intros _. split; [done|]. vm_compute. reflexivity.
  - intros _ k Hk. lia.
  - simpl. lia.
  - intros _ k Hk. assert (k = 1%nat) as -> by lia. vm_compute. discriminate.
Qed.

Lemma New_witness :
  New goodParams
    = (Logger goodParams ++ [configuringEntry 5],
       inl (mkOutput 5 (mkClient true []) newMetricsStorage
              (NewMapping (MappingString 5)) []
              (Logger goodParams ++ [configuringEntry 5])))
  /\ New badParams = (Logger badParams, inr "no flush period"%string).
Proof.
  split.
  - exact (proj1 (proj2 (proj2 (proj2
             (New_builds_only_when_every_step_succeeds goodParams))))
             5 _ (mkClient true []) eq_refl eq_refl eq_refl).
  - exact (proj1 (New_builds_only_when_every_step_succeeds badParams)
             0 _ eq_refl).
Defined.

(** The same sample three times in the buffer: the batch holds one entry
    and one point for its label set. *)
Example identical_samples_one_point :
  fst (convertToTimeSeries false idleOutput [container [req1; req1]; container [req1]])
    = [onePoint [prompb.mkLabel "__name__" "http_reqs"; prompb.mkLabel "method" "GET"] req1]
  /\ pointsOf
       (fst (convertToTimeSeries false idleOutput
               [container [req1; req1]; container [req1]]))
       [prompb.mkLabel "__name__" "http_reqs"; prompb.mkLabel "method" "GET"]
     = [prompb.mkSample 1 1000].
Proof. split; vm_compute; reflexivity. Qed.

End Examples.
